(** * ARQ protocol simulator: the engine of [src/app/page.tsx]

    A shallow embedding of the state and handlers of the React component
    [NetworkProtocolSimulator]: the four protocols (Simple, Stop-and-Wait,
    Go-Back-N, Selective-Repeat), the frame and acknowledgment registries,
    the sender window, the receiver's reorder buffer and the delayed
    callbacks set with [setTimeout].

    How the component is read:
    - the [useState] cells form one record, [State];
    - a handler runs against the state of the render that created it (its
      closure); the updates it queues, [setX(v)] and [setX(prev => ...)],
      are applied in program order.  A click handler always belongs to the
      latest render, so its closure is the current state;
    - a [setTimeout] callback keeps the closure of the handler that set it:
      the captured render state travels with the callback ([snap]) and the
      callback's functional updates are applied to the state current when
      it fires ([cur]);
    - [Date.now()] is a millisecond clock held by the [World].  Where a
      handler reads it twice for one record ([id] and [timestamp], lines
      88/92, 114/118, 214/217 and 249/252) both fields get the one reading
      of the event; no statement below relies on the two being equal. *)

From Stdlib Require Import ZArith List Bool String Lia Sorted Floats Uint63.
From Stdlib Require Import DecimalString.
Import ListNotations.
Local Open Scope Z_scope.

(** ** Data model (page.tsx, lines 12-27) *)

Inductive Protocol := simple | stop_and_wait | go_back_n | selective_repeat.

Inductive PacketStatus :=
  sending | sent | acknowledged | lost | retransmitting | received | buffered | discarded.

Inductive AckStatus := ack_sending | ack_received.

Inductive AckType := ACK | NACK.

Record Packet := mkPacket {
  id : Z;
  sequenceNumber : Z;
  data : string;
  status : PacketStatus;
  timestamp : Z;
  isRetransmission : bool   (* optional in the source: absent reads as false *)
}.

Record AckPacket := mkAckPacket {
  ack_id : Z;
  ack_sequenceNumber : Z;
  ack_status : AckStatus;
  ack_timestamp : Z;
  ack_type : AckType
}.

Definition Protocol_eqb (a b : Protocol) : bool :=
  match a, b with
  | simple, simple | stop_and_wait, stop_and_wait
  | go_back_n, go_back_n | selective_repeat, selective_repeat => true
  | _, _ => false
  end.

Definition PacketStatus_eqb (a b : PacketStatus) : bool :=
  match a, b with
  | sending, sending | sent, sent | acknowledged, acknowledged | lost, lost
  | retransmitting, retransmitting | received, received
  | buffered, buffered | discarded, discarded => true
  | _, _ => false
  end.

Definition AckType_eqb (a b : AckType) : bool :=
  match a, b with
  | ACK, ACK | NACK, NACK => true
  | _, _ => false
  end.

(** The [useState] cells of the component (lines 31-41). *)
Record State := mkState {
  protocol : Protocol;
  packets : list Packet;
  acks : list AckPacket;
  isSimulating : bool;
  windowSize : Z;
  nextSequenceNumber : Z;
  expectedSequenceNumber : Z;
  senderWindow : list Z;
  receiverBuffer : list Packet;
  waitingForAck : bool;
  showDiagram : bool
}.

(** ** State setters

    [setX f] is the functional form [setX(prev => f prev)]; the plain form
    [setX(v)] is [setX (fun _ => v)]. *)

Definition setProtocol (f : Protocol -> Protocol) (s : State) : State :=
  mkState (f (protocol s)) (packets s) (acks s) (isSimulating s) (windowSize s)
          (nextSequenceNumber s) (expectedSequenceNumber s) (senderWindow s)
          (receiverBuffer s) (waitingForAck s) (showDiagram s).

Definition setPackets (f : list Packet -> list Packet) (s : State) : State :=
  mkState (protocol s) (f (packets s)) (acks s) (isSimulating s) (windowSize s)
          (nextSequenceNumber s) (expectedSequenceNumber s) (senderWindow s)
          (receiverBuffer s) (waitingForAck s) (showDiagram s).

Definition setAcks (f : list AckPacket -> list AckPacket) (s : State) : State :=
  mkState (protocol s) (packets s) (f (acks s)) (isSimulating s) (windowSize s)
          (nextSequenceNumber s) (expectedSequenceNumber s) (senderWindow s)
          (receiverBuffer s) (waitingForAck s) (showDiagram s).

Definition setIsSimulating (f : bool -> bool) (s : State) : State :=
  mkState (protocol s) (packets s) (acks s) (f (isSimulating s)) (windowSize s)
          (nextSequenceNumber s) (expectedSequenceNumber s) (senderWindow s)
          (receiverBuffer s) (waitingForAck s) (showDiagram s).

Definition setWindowSize (f : Z -> Z) (s : State) : State :=
  mkState (protocol s) (packets s) (acks s) (isSimulating s) (f (windowSize s))
          (nextSequenceNumber s) (expectedSequenceNumber s) (senderWindow s)
          (receiverBuffer s) (waitingForAck s) (showDiagram s).

Definition setNextSequenceNumber (f : Z -> Z) (s : State) : State :=
  mkState (protocol s) (packets s) (acks s) (isSimulating s) (windowSize s)
          (f (nextSequenceNumber s)) (expectedSequenceNumber s) (senderWindow s)
          (receiverBuffer s) (waitingForAck s) (showDiagram s).

Definition setExpectedSequenceNumber (f : Z -> Z) (s : State) : State :=
  mkState (protocol s) (packets s) (acks s) (isSimulating s) (windowSize s)
          (nextSequenceNumber s) (f (expectedSequenceNumber s)) (senderWindow s)
          (receiverBuffer s) (waitingForAck s) (showDiagram s).

Definition setSenderWindow (f : list Z -> list Z) (s : State) : State :=
  mkState (protocol s) (packets s) (acks s) (isSimulating s) (windowSize s)
          (nextSequenceNumber s) (expectedSequenceNumber s) (f (senderWindow s))
          (receiverBuffer s) (waitingForAck s) (showDiagram s).

Definition setReceiverBuffer (f : list Packet -> list Packet) (s : State) : State :=
  mkState (protocol s) (packets s) (acks s) (isSimulating s) (windowSize s)
          (nextSequenceNumber s) (expectedSequenceNumber s) (senderWindow s)
          (f (receiverBuffer s)) (waitingForAck s) (showDiagram s).

Definition setWaitingForAck (f : bool -> bool) (s : State) : State :=
  mkState (protocol s) (packets s) (acks s) (isSimulating s) (windowSize s)
          (nextSequenceNumber s) (expectedSequenceNumber s) (senderWindow s)
          (receiverBuffer s) (f (waitingForAck s)) (showDiagram s).

Definition setShowDiagram (f : bool -> bool) (s : State) : State :=
  mkState (protocol s) (packets s) (acks s) (isSimulating s) (windowSize s)
          (nextSequenceNumber s) (expectedSequenceNumber s) (senderWindow s)
          (receiverBuffer s) (waitingForAck s) (f (showDiagram s)).

(** [s |> u] queues the update [u] after those already applied to [s]. *)
Notation "s |> u" := (u s) (at level 45, left associativity, only parsing).

Definition withStatus (st : PacketStatus) (p : Packet) : Packet :=
  mkPacket (id p) (sequenceNumber p) (data p) st (timestamp p) (isRetransmission p).

Definition withAckStatus (st : AckStatus) (a : AckPacket) : AckPacket :=
  mkAckPacket (ack_id a) (ack_sequenceNumber a) st (ack_timestamp a) (ack_type a).

(** The three [prev.map(...)] updaters of the component:
    [p.sequenceNumber === seq ? {...p, status} : p],
    [p.id === packetId ? {...p, status} : p] and
    [a.id === newAck.id ? {...a, status: 'received'} : a]. *)
Definition markStatus (seq : Z) (st' : PacketStatus) (ps : list Packet) : list Packet :=
  map (fun p => if sequenceNumber p =? seq then withStatus st' p else p) ps.

Definition markStatusById (packetId : Z) (st' : PacketStatus) (ps : list Packet)
  : list Packet :=
  map (fun p => if id p =? packetId then withStatus st' p else p) ps.

Definition markAckReceived (aid : Z) (l : list AckPacket) : list AckPacket :=
  map (fun a => if ack_id a =? aid then withAckStatus ack_received a else a) l.

(** ** JavaScript numbers where the code leaves the integers

    [Math.min(...xs)] is [+Infinity] on the empty array. *)

Inductive jsnum := Num (z : Z) | Infinity.

Definition js_min (a b : jsnum) : jsnum :=
  match a, b with
  | Infinity, x | x, Infinity => x
  | Num x, Num y => Num (Z.min x y)
  end.

Definition Math_min (xs : list Z) : jsnum :=
  fold_left (fun acc x => js_min acc (Num x)) xs Infinity.

(** [x >= y] and [x <= y] with an integer on the left. *)
Definition js_geb (x : Z) (y : jsnum) : bool :=
  match y with Num z => z <=? x | Infinity => false end.

Definition js_leb (x : Z) (y : jsnum) : bool :=
  match y with Num z => x <=? z | Infinity => true end.

Definition js_add (a : jsnum) (k : Z) : jsnum :=
  match a with Num z => Num (z + k) | Infinity => Infinity end.

(** Template literal [`Frame ${n}`]. *)
Definition string_of_Z (n : Z) : string := NilZero.string_of_int (Z.to_int n).

Definition frameData (n : Z) : string := ("Frame " ++ string_of_Z n)%string.

(** ** Delayed callbacks

    Each constructor is one arrow function handed to [setTimeout]; [snap] is
    the render state captured by the enclosing handler. *)

Inductive Callback :=
| CbArrived (pid : Z)                                  (* lines 101-106 *)
| CbRetxArrived (snap : State) (pid : Z)               (* lines 122-129 *)
| CbRetransmit (snap : State) (seq : Z)                (* lines 135-137, 148-150, 154 *)
| CbRetransmitFrom (snap : State)                      (* lines 152, 270 *)
| CbAckArrived (snap : State) (aid seq : Z) (ty : AckType)   (* lines 223-243 *)
| CbNackArrived (snap : State) (aid seq : Z).          (* lines 258-274 *)

Record Timer := mkTimer { due : Z; cb : Callback }.

(** A handler yields the updated state and the timers it has set. *)
Definition Outcome : Type := State * list Timer.

(** ** Handlers *)

(** [resetSimulation] (lines 50-60). *)
Definition resetSimulation (s : State) : State :=
  s |> setPackets (fun _ => [])
    |> setAcks (fun _ => [])
    |> setNextSequenceNumber (fun _ => 0)
    |> setExpectedSequenceNumber (fun _ => 0)
    |> setSenderWindow (fun _ => [])
    |> setReceiverBuffer (fun _ => [])
    |> setWaitingForAck (fun _ => false)
    |> setIsSimulating (fun _ => false)
    |> setShowDiagram (fun _ => false).

(** [canSendPacket] (lines 62-82). *)
Definition canSendPacket (s : State) : bool :=
  if isSimulating s then false else
  match protocol s with
  | simple => true
  | stop_and_wait => negb (waitingForAck s)
  | go_back_n | selective_repeat =>
      if Z.of_nat (List.length (senderWindow s)) >=? windowSize s then false else
      if (List.length (senderWindow s) =? 0)%nat then true else
      let base := Math_min (senderWindow s) in
      let windowEnd := js_add base (windowSize s - 1) in
      js_geb (nextSequenceNumber s) base && js_leb (nextSequenceNumber s) windowEnd
  end.

(** [sendPacket] (lines 84-108); [now] is [Date.now()]. *)
Definition sendPacket (s : State) (now : Z) : Outcome :=
  if negb (canSendPacket s) then (s, []) else
  let newPacket :=
    mkPacket now (nextSequenceNumber s) (frameData (nextSequenceNumber s))
             sending now false in
  let s1 := s |> setIsSimulating (fun _ => true)
              |> setPackets (fun prev => prev ++ [newPacket]) in
  let s2 := match protocol s with
            | go_back_n | selective_repeat =>
                s1 |> setSenderWindow (fun prev => prev ++ [nextSequenceNumber s])
            | _ => s1
            end in
  let s3 := match protocol s with
            | stop_and_wait => s2 |> setWaitingForAck (fun _ => true)
            | _ => s2
            end in
  (s3 |> setNextSequenceNumber (fun prev => prev + 1),
   [mkTimer (now + 1000) (CbArrived (id newPacket))]).

(** [retransmitPacket] (lines 110-130): [snap] is the closure's render state,
    [cur] the state the update is applied to. *)
Definition retransmitPacket (snap : State) (seq : Z) (now : Z) (cur : State) : Outcome :=
  match find (fun p => sequenceNumber p =? seq) (packets snap) with
  | None => (cur, [])
  | Some originalPacket =>
      let retransmittedPacket :=
        mkPacket now seq (data originalPacket) retransmitting now true in
      (cur |> setPackets (fun prev => prev ++ [retransmittedPacket]),
       [mkTimer (now + 1000) (CbRetxArrived snap (id retransmittedPacket))])
  end.

(** [forEach((seq, index) => setTimeout(..., index * 500))]. *)
Fixpoint stagger (snap : State) (now : Z) (index : Z) (seqs : list Z) : list Timer :=
  match seqs with
  | [] => []
  | seq :: rest =>
      mkTimer (now + index * 500) (CbRetransmit snap seq)
        :: stagger snap now (index + 1) rest
  end.

(** [retransmitFromSequence] (lines 132-139). *)
Definition retransmitFromSequence (snap : State) (fromSequence : jsnum)
    (now : Z) (cur : State) : Outcome :=
  let packetsToRetransmit :=
    filter (fun seq => js_geb seq fromSequence) (senderWindow snap) in
  (cur, stagger snap now 0 packetsToRetransmit).

(** [losePacket] (lines 141-156). *)
Definition losePacket (s : State) (packetId : Z) (now : Z) : Outcome :=
  let s1 := s |> setPackets (markStatusById packetId lost) in
  match find (fun p => id p =? packetId) (packets s) with
  | None => (s1, [])
  | Some packet =>
      match protocol s with
      | stop_and_wait =>
          (s1, [mkTimer (now + 500) (CbRetransmit s (sequenceNumber packet))])
      | go_back_n => (s1, [mkTimer (now + 500) (CbRetransmitFrom s)])
      | selective_repeat =>
          (s1, [mkTimer (now + 500) (CbRetransmit s (sequenceNumber packet))])
      | simple => (s1, [])
      end
  end.

(** The filter of lines 200-206: one pass over the buffer, in arrival order,
    whose predicate advances [nextExpected] each time it removes a frame.
    Returns the kept frames and the final [nextExpected]. *)
Fixpoint drainBuffer (buffer : list Packet) (nextExpected : Z) : list Packet * Z :=
  match buffer with
  | [] => ([], nextExpected)
  | p :: rest =>
      if sequenceNumber p =? nextExpected
      then drainBuffer rest (nextExpected + 1)
      else let '(kept, n) := drainBuffer rest nextExpected in (p :: kept, n)
  end.

(** The [switch] of [sendAck] (lines 163-211): the queued updates and the
    values left in [shouldSendAck] and [ackType]. *)
Definition ackPolicy (s : State) (packet : Packet) (seq : Z) : State * bool * AckType :=
  match protocol s with
  | simple => (s, true, ACK)
  | stop_and_wait =>
      if seq =? expectedSequenceNumber s
      then (s |> setExpectedSequenceNumber (fun prev => prev + 1), true, ACK)
      else (s, true, NACK)
  | go_back_n =>
      (if seq >=? expectedSequenceNumber s then
         if seq =? expectedSequenceNumber s then
           s |> setExpectedSequenceNumber (fun prev => prev + 1)
             |> setSenderWindow
                  (filter (fun x => x >? expectedSequenceNumber s - 1))
         else
           s |> setSenderWindow (filter (fun x => negb (x =? seq)))
       else s,
       true, ACK)
  | selective_repeat =>
      (if negb (seq =? expectedSequenceNumber s) then
         s |> setReceiverBuffer (fun prev => prev ++ [packet])
           |> setPackets (markStatus seq buffered)
       else
         let '(newBuffer, nextExpected) :=
           drainBuffer (receiverBuffer s) (expectedSequenceNumber s + 1) in
         s |> setExpectedSequenceNumber (fun prev => prev + 1)
           |> setReceiverBuffer (fun _ => newBuffer)
           |> setExpectedSequenceNumber (fun _ => nextExpected),
       true, ACK)
  end.

(** [sendAck] (lines 158-245). *)
Definition sendAck (s : State) (seq : Z) (now : Z) : Outcome :=
  match find (fun p => (sequenceNumber p =? seq)
                       && PacketStatus_eqb (status p) received) (packets s) with
  | None => (s, [])
  | Some packet =>
      let '(s1, shouldSendAck, ackType) := ackPolicy s packet seq in
      if shouldSendAck then
        let newAck := mkAckPacket now seq ack_sending now ackType in
        let s2 := if negb (Protocol_eqb (protocol s) stop_and_wait)
                  then s1 |> setAcks (fun prev => prev ++ [newAck])
                  else s1 in
        (s2, [mkTimer (now + 500) (CbAckArrived s (ack_id newAck) seq ackType)])
      else (s1, [])
  end.

(** The timeout of [sendAck] (lines 223-243). *)
Definition ackArrived (snap : State) (aid seq : Z) (ackType : AckType)
    (cur : State) : State :=
  let c1 := if negb (Protocol_eqb (protocol snap) stop_and_wait)
            then cur |> setAcks (markAckReceived aid)
            else cur in
  if AckType_eqb ackType ACK then
    let c2 := c1 |> setPackets (markStatus seq acknowledged) in
    let c3 := match protocol snap with
              | go_back_n =>
                  c2 |> setSenderWindow (filter (fun x => negb (x =? seq)))
              | selective_repeat =>
                  c2 |> setSenderWindow (filter (fun x => negb (x =? seq)))
              | _ => c2
              end in
    if Protocol_eqb (protocol snap) stop_and_wait
    then c3 |> setWaitingForAck (fun _ => false)
    else c3
  else c1.

(** [sendNack] (lines 247-275), up to the [setTimeout]. *)
Definition sendNack (s : State) (seq : Z) (now : Z) : Outcome :=
  let newAck := mkAckPacket now seq ack_sending now NACK in
  let s1 := if negb (Protocol_eqb (protocol s) stop_and_wait)
            then s |> setAcks (fun prev => prev ++ [newAck])
            else s in
  (s1, [mkTimer (now + 500) (CbNackArrived s (ack_id newAck) seq)]).

(** The timeout of [sendNack] (lines 258-274). *)
Definition nackArrived (snap : State) (aid seq : Z) (now : Z) (cur : State) : Outcome :=
  let c1 := if negb (Protocol_eqb (protocol snap) stop_and_wait)
            then cur |> setAcks (markAckReceived aid)
            else cur in
  let c2 := c1 |> setPackets (markStatus seq lost) in
  match protocol snap with
  | stop_and_wait => retransmitPacket snap seq now c2
  | go_back_n => (c2, [mkTimer (now + 500) (CbRetransmitFrom snap)])
  | selective_repeat => retransmitPacket snap seq now c2
  | simple => (c2, [])
  end.

(** What a timer does when it fires at time [now] on state [cur]. *)
Definition run_callback (c : Callback) (now : Z) (cur : State) : Outcome :=
  match c with
  | CbArrived pid =>
      (cur |> setPackets (markStatusById pid received)
           |> setIsSimulating (fun _ => false), [])
  | CbRetxArrived snap pid =>
      let c1 := cur |> setPackets (markStatusById pid received) in
      (if Protocol_eqb (protocol snap) stop_and_wait
       then c1 |> setWaitingForAck (fun _ => false) else c1, [])
  | CbRetransmit snap seq => retransmitPacket snap seq now cur
  | CbRetransmitFrom snap =>
      retransmitFromSequence snap (Math_min (senderWindow snap)) now cur
  | CbAckArrived snap aid seq ty => (ackArrived snap aid seq ty cur, [])
  | CbNackArrived snap aid seq => nackArrived snap aid seq now cur
  end.

(** ** The success-rate cell (line 683)

    JavaScript numbers are binary64 floats, and so are Rocq's primitive
    floats: [0 / 0] is [nan] and [n / 0] is [infinity] for [n > 0]. *)

Definition js_of_nat (n : nat) : float := of_uint63 (Uint63.of_Z (Z.of_nat n)).

Definition Math_floor (x : float) : float :=
  match Prim2SF x with
  | S754_finite sign m e =>
      if e >=? 0 then x else
      let q := Z.shiftr (Z.pos m) (- e) in
      let exact := Z.shiftl q (- e) =? Z.pos m in
      if sign
      then PrimFloat.opp (of_uint63 (Uint63.of_Z (if exact then q else q + 1)))
      else of_uint63 (Uint63.of_Z q)
  | _ => x
  end.

(** [Math.round]: the nearest integer, ties toward [+Infinity]; [NaN] and the
    infinities are returned as they are.  (For arguments in [-0.5, 0) the
    result here is [+0] where JavaScript has [-0]; the cell never passes a
    negative number.) *)
Definition Math_round (x : float) : float :=
  let f := Math_floor x in
  if PrimFloat.leb 0.5%float (PrimFloat.sub x f)
  then PrimFloat.add f 1%float else f.

Definition successRate (s : State) : float :=
  if (0 <? List.length (packets s))%nat then
    Math_round
      (PrimFloat.mul
         (PrimFloat.div
            (js_of_nat (List.length
               (filter (fun p => PacketStatus_eqb (status p) acknowledged) (packets s))))
            (js_of_nat (List.length
               (filter (fun p => negb (isRetransmission p)) (packets s)))))
         100%float)
  else 0%float.

(** ** The event loop

    The world is the current state, the clock and the pending timers, kept
    in the order they were set. *)

Record World := mkWorld { st : State; now : Z; timers : list Timer }.

(** Initial render (lines 31-41) at clock value [t0]. *)
Definition initialState : State :=
  mkState stop_and_wait [] [] false 4 0 0 [] [] false false.

Definition initialWorld (t0 : Z) : World := mkWorld initialState t0 [].

(** What the page lets the user do.  The ACK, NACK and Lose buttons are
    rendered for frames in status received only and the window-size list
    under the two windowed protocols only; the handlers behind them take any
    argument, and so do the commands here, the window size excepted, whose
    list offers 1 to 8. *)
Inductive Command :=
| ClickSend                       (* line 444 *)
| ClickAck (seq : Z)              (* line 570 *)
| ClickNack (seq : Z)             (* line 578 *)
| ClickLose (packetId : Z)        (* line 516 *)
| ClickReset                      (* line 459 *)
| SelectProtocol (p : Protocol)   (* lines 403-406 *)
| SelectWindowSize (n : Z)        (* lines 421-424, items 1..8 of line 429 *)
| ClickFinish                     (* line 384 *)
| ClickClose.                     (* line 695 *)

Definition handle (c : Command) (s : State) (now : Z) : Outcome :=
  match c with
  | ClickSend => sendPacket s now
  | ClickAck seq => sendAck s seq now
  | ClickNack seq => sendNack s seq now
  | ClickLose packetId => losePacket s packetId now
  | ClickReset => (resetSimulation s, [])
  | SelectProtocol p => (s |> setProtocol (fun _ => p) |> resetSimulation, [])
  | SelectWindowSize n =>
      if (1 <=? n) && (n <=? 8)
      then (s |> setWindowSize (fun _ => n) |> resetSimulation, [])
      else (s, [])
  | ClickFinish => (s |> setShowDiagram (fun _ => true), [])
  | ClickClose => (s |> setShowDiagram (fun _ => false), [])
  end.

(** The timer to fire next: the least due time, the one set first among
    equals; and the timers left. *)
Fixpoint pick (ts : list Timer) : option (Timer * list Timer) :=
  match ts with
  | [] => None
  | t :: rest =>
      match pick rest with
      | None => Some (t, [])
      | Some (t', rest') =>
          if due t <=? due t' then Some (t, rest) else Some (t', t :: rest')
      end
  end.

(** The clock never passes a pending timer: [Wait] is refused when a timer
    is due before its end, so a timer fires at its due time. *)
Inductive Event :=
| Click (c : Command)   (* a user action at the current clock value *)
| Fire                  (* the next timer fires, the clock moving to its due time *)
| Wait (dt : Z).        (* [dt] ms pass during which no timer is due *)

Definition click (c : Command) (w : World) : World :=
  let '(s, new) := handle c (st w) (now w) in
  mkWorld s (now w) (timers w ++ new).

Definition fire (w : World) : World :=
  match pick (timers w) with
  | None => w
  | Some (t, rest) =>
      let t_now := Z.max (now w) (due t) in
      let '(s, new) := run_callback (cb t) t_now (st w) in
      mkWorld s t_now (rest ++ new)
  end.

Definition wait (dt : Z) (w : World) : World :=
  if (0 <=? dt) && forallb (fun t => now w + dt <=? due t) (timers w)
  then mkWorld (st w) (now w + dt) (timers w)
  else w.

Definition exec (e : Event) (w : World) : World :=
  match e with
  | Click c => click c w
  | Fire => fire w
  | Wait dt => wait dt w
  end.

Definition run (es : list Event) (w : World) : World :=
  fold_left (fun w e => exec e w) es w.

Inductive reachable : World -> Prop :=
| reach_init (t0 : Z) : reachable (initialWorld t0)
| reach_step (w : World) (e : Event) : reachable w -> reachable (exec e w).

(** Frames of the registry by sequence number and status. *)
Definition hasReceived (seq : Z) (ps : list Packet) : bool :=
  existsb (fun p => (sequenceNumber p =? seq) && PacketStatus_eqb (status p) received) ps.

(** Scenarios used below, all starting from the first render at clock 0. *)

(** Selective-Repeat, frames 0, 1 and 2 sent and arrived. *)
Definition sr_three_received : World :=
  run [Click (SelectProtocol selective_repeat);
       Click ClickSend; Fire; Wait 100;
       Click ClickSend; Fire; Wait 100;
       Click ClickSend; Fire; Wait 100] (initialWorld 0).

(** Go-Back-N, frame 0 sent and arrived. *)
Definition gbn_one_received : World :=
  run [Click (SelectProtocol go_back_n); Click ClickSend; Fire; Wait 100]
      (initialWorld 0).

(** Go-Back-N with window size 3, frames 0, 1 and 2 sent and arrived. *)
Definition gbn_three_received : World :=
  run [Click (SelectProtocol go_back_n); Click (SelectWindowSize 3);
       Click ClickSend; Fire; Wait 100;
       Click ClickSend; Fire; Wait 100;
       Click ClickSend; Fire; Wait 100] (initialWorld 0).

(** Go-Back-N: frame 0 is refused, then acknowledged before the NACK lands;
    the go-back resend of 0 arrives after the window has emptied. *)
Definition gbn_window_drained : World :=
  run [Click (SelectProtocol go_back_n); Click ClickSend; Fire; Wait 100;
       Click (ClickNack 0); Wait 100; Click (ClickAck 0);
       Fire; Fire; Fire; Fire; Fire; Wait 100] (initialWorld 0).

(** Stop-and-Wait: frame 0 is refused and retransmitted, then frame 1 is
    sent and arrives while 0 is still the expected number. *)
Definition sw_frame1_received : World :=
  run [Click ClickSend; Fire; Wait 100;
       Click (ClickNack 0); Fire; Fire; Wait 100;
       Click ClickSend; Fire; Wait 100] (initialWorld 0).

(** A reset between a NACK and its timeout. *)
Definition reset_before_nack_arrives : World :=
  run [Click ClickSend; Fire; Wait 200;
       Click (ClickNack 0); Wait 100;
       Click ClickReset; Fire] (initialWorld 0).

(** What every reachable state satisfies: the window-size choice comes from
    the list 1..8, the window fits in it, is strictly ascending, holds only
    numbers already handed out, and each of them has a frame in the registry. *)
Record WellFormed (s : State) : Prop := mkWellFormed {
  wf_windowSize : 1 <= windowSize s <= 8;
  wf_length : Z.of_nat (List.length (senderWindow s)) <= windowSize s;
  wf_sorted : StronglySorted Z.lt (senderWindow s);
  wf_below : Forall (fun x => 0 <= x < nextSequenceNumber s) (senderWindow s);
  wf_frames : incl (senderWindow s) (map sequenceNumber (packets s));
  wf_next : 0 <= nextSequenceNumber s
}.

(** Events that put the simulation back to its start. *)
Definition isReset (e : Event) : bool :=
  match e with
  | Click ClickReset | Click (SelectProtocol _) | Click (SelectWindowSize _) => true
  | _ => false
  end.

(** [n] timers fire in a row. *)
Fixpoint fires (n : nat) (w : World) : World :=
  match n with
  | O => w
  | S k => fires k (fire w)
  end.

(** What the registry shows of a frame apart from its identity and status. *)
Definition frameKey (p : Packet) : Z * bool := (sequenceNumber p, isRetransmission p).

(** The pending retransmissions, in the order they were set: due time and
    sequence number. *)
Definition pendingRetransmits (ts : list Timer) : list (Z * Z) :=
  flat_map (fun tm => match cb tm with
                      | CbRetransmit _ x => [(due tm, x)]
                      | _ => []
                      end) ts.

(** The timers of a go-back resend under way from the render [s]: a
    retransmission of a window member, or the arrival of one. *)
Definition resendTimer (s : State) (tm : Timer) : Prop :=
  (exists x, cb tm = CbRetransmit s x /\ In x (senderWindow s))
  \/ (exists pid, cb tm = CbRetxArrived s pid).

(** The pending retransmissions are due at strictly increasing times. *)
Definition staggered (ts : list Timer) : Prop :=
  StronglySorted (fun a b : Z * Z => fst a < fst b) (pendingRetransmits ts).

(** ** The receiver panel and the statistics cells *)

(** [getReceivedPackets] (lines 319-321). *)
Definition getReceivedPackets (s : State) : list Packet :=
  filter (fun p => existsb (PacketStatus_eqb (status p))
                     [received; acknowledged; buffered; discarded])
         (packets s).

(** The cells of lines 654-679. *)
Definition totalSent (s : State) : nat := List.length (packets s).

Definition totalAcknowledged (s : State) : nat :=
  List.length (filter (fun p => PacketStatus_eqb (status p) acknowledged) (packets s)).

Definition totalLost (s : State) : nat :=
  List.length (filter (fun p => PacketStatus_eqb (status p) lost) (packets s)).

Definition totalRetransmitted (s : State) : nat :=
  List.length (filter (fun p => isRetransmission p) (packets s)).

Definition totalBuffered (s : State) : nat := List.length (receiverBuffer s).

(** ** Vocabulary of the further invariants *)

(** The frames that are not retransmissions. *)
Definition firstSends (ps : list Packet) : list Packet :=
  filter (fun p => negb (isRetransmission p)) ps.

(** The numbers 0, 1, ..., n - 1. *)
Definition upto (n : Z) : list Z := map Z.of_nat (seq 0 (Z.to_nat n)).

(** The statuses the handlers write: never [sent] nor [discarded], [sending]
    on a first send only, [retransmitting] on a retransmission only. *)
Definition statusAllowed (p : Packet) : bool :=
  match status p with
  | sent | discarded => false
  | sending => negb (isRetransmission p)
  | retransmitting => isRetransmission p
  | _ => true
  end.

(** A frame as the handlers build it: the payload names its sequence
    number and the status is one the handlers write. *)
Definition frameOK (p : Packet) : Prop :=
  data p = frameData (sequenceNumber p)
  /\ statusAllowed p = true.

(** The render state a callback has captured, when it has one. *)
Definition closure (c : Callback) : option State :=
  match c with
  | CbArrived _ => None
  | CbRetxArrived snap _ | CbRetransmit snap _ | CbRetransmitFrom snap
  | CbAckArrived snap _ _ _ | CbNackArrived snap _ _ => Some snap
  end.

Definition closureOK (c : Callback) : Prop :=
  match closure c with
  | Some snap => Forall frameOK (packets snap)
  | None => True
  end.

Record FramesOK (w : World) : Prop := mkFramesOK {
  fr_registry : Forall frameOK (packets (st w));
  fr_buffer : Forall (fun p => frameOK p /\ status p = received) (receiverBuffer (st w));
  fr_timers : Forall (fun tm => closureOK (cb tm)) (timers w)
}.

(** State that belongs to one protocol only. *)
Record Scoped (s : State) : Prop := mkScoped {
  sc_window : protocol s = simple \/ protocol s = stop_and_wait -> senderWindow s = [];
  sc_buffer : protocol s <> selective_repeat -> receiverBuffer s = [];
  sc_acks : protocol s = stop_and_wait -> acks s = [];
  sc_waiting : waitingForAck s = true -> protocol s = stop_and_wait
}.

(** The timer set by [sendPacket] (lines 101-106). *)
Definition isArrival (tm : Timer) : bool :=
  match cb tm with
  | CbArrived _ => true
  | _ => false
  end.

(** The arrival timers pending. *)
Definition pendingArrivals (w : World) : list Timer := filter isArrival (timers w).

(** ** Basic facts *)

Lemma reachable_run (es : list Event) (w : World) :
  reachable w -> reachable (run es w).
Proof.
  revert w. induction es as [|e es IH]; intros w Hw; simpl.
  - exact Hw.
  - apply IH. now apply reach_step.
Qed.

Lemma click_eq (c : Command) (w : World) (s : State) (new : list Timer) :
  handle c (st w) (now w) = (s, new) ->
  click c w = mkWorld s (now w) (timers w ++ new).
Proof. intros H. unfold click. now rewrite H. Qed.

Lemma fire_single (w : World) (t : Timer) (s : State) (new : list Timer) :
  timers w = [t] -> now w <= due t ->
  run_callback (cb t) (due t) (st w) = (s, new) ->
  fire w = mkWorld s (due t) new.
Proof.
  intros Ht Hle Hrun. unfold fire. rewrite Ht. simpl pick. cbv iota beta.
  rewrite Z.max_r by exact Hle. rewrite Hrun. reflexivity.
Qed.

Lemma find_absent {A} (f : A -> bool) (l : list A) :
  (forall x, In x l -> f x = false) -> find f l = None.
Proof.
  intros H. destruct (find f l) as [x|] eqn:E; [|reflexivity].
  apply find_some in E. destruct E as [Hin Hf].
  rewrite (H x Hin) in Hf. discriminate.
Qed.

Lemma find_present {A} (f : A -> bool) (l : list A) (x : A) :
  In x l -> f x = true -> exists y, find f l = Some y.
Proof.
  intros Hin Hf. destruct (find f l) as [y|] eqn:E; [now exists y|].
  rewrite (find_none f l E x Hin) in Hf. discriminate.
Qed.

Lemma filter_all {A} (f : A -> bool) (l : list A) :
  Forall (fun x => f x = true) l -> filter f l = l.
Proof.
  induction 1 as [|x l Hx _ IH]; simpl; [reflexivity|].
  now rewrite Hx, IH.
Qed.

Lemma filter_length_le {A} (f : A -> bool) (l : list A) :
  (List.length (filter f l) <= List.length l)%nat.
Proof.
  induction l as [|x l IH]; simpl; [lia|]. destruct (f x); simpl; lia.
Qed.

Lemma Math_min_from (xs : list Z) (a : Z) :
  exists m, fold_left (fun acc x => js_min acc (Num x)) xs (Num a) = Num m
            /\ In m (a :: xs) /\ Forall (fun y => m <= y) (a :: xs).
Proof.
  revert a. induction xs as [|x xs IH]; intros a; simpl.
  - exists a. repeat split; [now left | constructor; [lia | constructor]].
  - destruct (IH (Z.min a x)) as [m [Hm [Hin Hall]]].
    exists m. split; [exact Hm|]. split.
    + destruct Hin as [Hin|Hin].
      * destruct (Z.min_spec a x) as [[_ E]|[_ E]]; rewrite E in Hin;
          [now left | right; now left].
      * right; now right.
    + inversion Hall as [|? ? Hmin Hrest]; subst.
      constructor; [lia|]. constructor; [lia | exact Hrest].
Qed.

(** On a non-empty array [Math.min] is the least element. *)
Lemma Math_min_nonempty (x : Z) (xs : list Z) :
  exists m, Math_min (x :: xs) = Num m
            /\ In m (x :: xs) /\ Forall (fun y => m <= y) (x :: xs).
Proof. unfold Math_min; simpl. apply Math_min_from. Qed.

Lemma find_received_present (seq : Z) (ps : list Packet) :
  hasReceived seq ps = true ->
  exists packet,
    find (fun p => (sequenceNumber p =? seq) && PacketStatus_eqb (status p) received) ps
    = Some packet.
Proof.
  unfold hasReceived. intros H. apply existsb_exists in H.
  destruct H as [p [Hin Hp]]. now apply (find_present _ ps p).
Qed.

Lemma find_received_absent (seq : Z) (ps : list Packet) :
  hasReceived seq ps = false ->
  find (fun p => (sequenceNumber p =? seq) && PacketStatus_eqb (status p) received) ps
  = None.
Proof.
  unfold hasReceived. intros H. apply find_absent. intros p Hin.
  destruct ((sequenceNumber p =? seq) && PacketStatus_eqb (status p) received) eqn:E;
    [|reflexivity].
  assert (Hex : existsb (fun p => (sequenceNumber p =? seq)
                            && PacketStatus_eqb (status p) received) ps = true).
  { apply existsb_exists. now exists p. }
  rewrite H in Hex. discriminate.
Qed.

(** Every protocol leaves [shouldSendAck] true. *)
Lemma ackPolicy_always_sends (s : State) (packet : Packet) (seq : Z) :
  snd (fst (ackPolicy s packet seq)) = true.
Proof.
  unfold ackPolicy. destruct (protocol s); simpl; try reflexivity.
  destruct (seq =? expectedSequenceNumber s); reflexivity.
Qed.

(** ** Negative acknowledgment has no precondition *)

(** C9. Under every protocol other than Stop-and-Wait, [sendNack seq] appends
    a NACK record (status sending) to the acknowledgment log whatever [seq]
    is and whatever the registry holds, so also when no frame carries
    [seq]; [sendAck seq] on the contrary changes nothing and sets no timer
    unless a frame with that number and status received exists, in which
    case it does set its timer. *)
Theorem sendNack_has_no_precondition (s : State) (seq t : Z)
    (Hproto : protocol s <> stop_and_wait) :
  fst (sendNack s seq t)
    = (s |> setAcks (fun prev => prev ++ [mkAckPacket t seq ack_sending t NACK]))
  /\ acks (fst (sendNack s seq t))
       = acks s ++ [mkAckPacket t seq ack_sending t NACK]
  /\ (hasReceived seq (packets s) = false -> sendAck s seq t = (s, []))
  /\ (hasReceived seq (packets s) = true -> exists tm, snd (sendAck s seq t) = [tm]).
Proof.
  assert (Hfst : fst (sendNack s seq t)
    = (s |> setAcks (fun prev => prev ++ [mkAckPacket t seq ack_sending t NACK]))).
  { unfold sendNack. simpl.
    destruct (protocol s); simpl; try reflexivity. now elim Hproto. }
  split; [exact Hfst|]. split; [rewrite Hfst; reflexivity|]. split.
  - intros Hno. unfold sendAck. now rewrite (find_received_absent _ _ Hno).
  - intros Hyes. destruct (find_received_present _ _ Hyes) as [packet Hfind].
    unfold sendAck. rewrite Hfind.
    pose proof (ackPolicy_always_sends s packet seq) as Hsend.
    destruct (ackPolicy s packet seq) as [[s1 should] ty]. simpl in Hsend.
    subst should. eexists. reflexivity.
Qed.

(** The theorem at a Go-Back-N state holding frame 0 only, for sequence
    number 7. *)
Lemma sendNack_has_no_precondition_witness :
  acks (fst (sendNack (st gbn_one_received) 7 1100))
    = acks (st gbn_one_received) ++ [mkAckPacket 1100 7 ack_sending 1100 NACK]
  /\ sendAck (st gbn_one_received) 7 1100 = (st gbn_one_received, []).
Proof.
  destruct (sendNack_has_no_precondition (st gbn_one_received) 7 1100)
    as [_ [Hacks [Hnoop _]]].
  - vm_compute. discriminate.
  - split; [exact Hacks|]. apply Hnoop. vm_compute. reflexivity.
Defined.

(** ** Go-Back-N: a NACK on an empty window *)

(** C10. Under Go-Back-N with an empty sender window, [sendNack seq] and the
    callbacks it sets all return: the call appends the NACK record and sets
    one timer; that timer marks the record received, marks the frames
    numbered [seq] lost and sets the go-back timer; the go-back timer
    computes the base [Math.min()] = [Infinity], finds no window member at
    or above it, changes nothing and sets no timer.  With no other timer
    pending the registry ends as it began up to the lost marks: no frame is
    added. *)
Theorem go_back_n_nack_on_empty_window (s : State) (seq t : Z)
    (Hgbn : protocol s = go_back_n) (Hempty : senderWindow s = []) :
  Math_min (senderWindow s) = Infinity
  /\ sendNack s seq t
       = (s |> setAcks (fun prev => prev ++ [mkAckPacket t seq ack_sending t NACK]),
          [mkTimer (t + 500) (CbNackArrived s t seq)])
  /\ (forall cur t1,
        run_callback (CbNackArrived s t seq) t1 cur
        = (cur |> setAcks (markAckReceived t) |> setPackets (markStatus seq lost),
           [mkTimer (t1 + 500) (CbRetransmitFrom s)]))
  /\ (forall cur t2, run_callback (CbRetransmitFrom s) t2 cur = (cur, []))
  /\ (forall w, st w = s -> now w = t -> timers w = [] ->
        let w' := run [Click (ClickNack seq); Fire; Fire] w in
        timers w' = []
        /\ packets (st w') = markStatus seq lost (packets s)
        /\ List.length (packets (st w')) = List.length (packets s)
        /\ acks (st w')
           = markAckReceived t (acks s ++ [mkAckPacket t seq ack_sending t NACK])).
Proof.
  assert (Hmin : Math_min (senderWindow s) = Infinity) by now rewrite Hempty.
  assert (Hcall : sendNack s seq t
       = (s |> setAcks (fun prev => prev ++ [mkAckPacket t seq ack_sending t NACK]),
          [mkTimer (t + 500) (CbNackArrived s t seq)])).
  { unfold sendNack. rewrite Hgbn. reflexivity. }
  assert (Hnack : forall cur t1,
        run_callback (CbNackArrived s t seq) t1 cur
        = (cur |> setAcks (markAckReceived t) |> setPackets (markStatus seq lost),
           [mkTimer (t1 + 500) (CbRetransmitFrom s)])).
  { intros cur t1. simpl. unfold nackArrived. rewrite Hgbn. reflexivity. }
  assert (Hback : forall cur t2, run_callback (CbRetransmitFrom s) t2 cur = (cur, [])).
  { intros cur t2. simpl. unfold retransmitFromSequence. now rewrite Hempty. }
  repeat (split; [assumption|]).
  intros [s0 t0 ts0] Hs Ht Hts. simpl in Hs, Ht, Hts. subst s0 t0 ts0.
  cbv zeta. unfold run. cbn [fold_left exec].
  rewrite (click_eq (ClickNack seq) (mkWorld s t []) _ _ Hcall). cbn [st now timers app].
  erewrite (fire_single (mkWorld _ _ _));
    [ | reflexivity | cbn [due now]; lia | cbn [cb due st]; apply Hnack ].
  erewrite (fire_single (mkWorld _ _ _));
    [ | reflexivity | cbn [due now]; lia | cbn [cb due st]; apply Hback ].
  cbn [st timers packets acks setPackets setAcks].
  repeat split; try reflexivity. unfold markStatus. now rewrite length_map.
Qed.

(** The theorem at a Go-Back-N world whose window is empty while a
    retransmitted frame 0 sits in status received. *)
Lemma go_back_n_nack_on_empty_window_witness :
  timers (run [Click (ClickNack 0); Fire; Fire] gbn_window_drained) = []
  /\ List.length (packets (st (run [Click (ClickNack 0); Fire; Fire] gbn_window_drained)))
     = List.length (packets (st gbn_window_drained)).
Proof.
  destruct (go_back_n_nack_on_empty_window
              (st gbn_window_drained) 0 (now gbn_window_drained))
    as [_ [_ [_ [_ H]]]].
  - vm_compute. reflexivity.
  - vm_compute. reflexivity.
  - destruct (H gbn_window_drained) as [H1 [_ [H2 _]]];
      [reflexivity | reflexivity | vm_compute; reflexivity |].
    split; [exact H1 | exact H2].
Defined.

(** ** Invariants of the reachable states *)

Lemma map_sequenceNumber_markStatus (seq : Z) (st' : PacketStatus) (ps : list Packet) :
  map sequenceNumber (markStatus seq st' ps) = map sequenceNumber ps.
Proof.
  unfold markStatus. rewrite map_map. apply map_ext.
  intros p. now destruct (sequenceNumber p =? seq).
Qed.

Lemma map_sequenceNumber_markStatusById (pid : Z) (st' : PacketStatus) (ps : list Packet) :
  map sequenceNumber (markStatusById pid st' ps) = map sequenceNumber ps.
Proof.
  unfold markStatusById. rewrite map_map. apply map_ext.
  intros p. now destruct (id p =? pid).
Qed.

Lemma StronglySorted_filter_lt (f : Z -> bool) (l : list Z) :
  StronglySorted Z.lt l -> StronglySorted Z.lt (filter f l).
Proof.
  induction 1 as [|x l Hs IH Hall]; simpl; [constructor|].
  destruct (f x); [|exact IH].
  constructor; [exact IH|].
  rewrite Forall_forall in *. intros y Hy.
  apply filter_In in Hy. now apply Hall.
Qed.

Lemma StronglySorted_snoc (l : list Z) (n : Z) :
  StronglySorted Z.lt l -> Forall (fun x => x < n) l ->
  StronglySorted Z.lt (l ++ [n]).
Proof.
  induction 1 as [|x l Hs IH Hall]; intros Hlt; simpl.
  - repeat constructor.
  - inversion Hlt as [|? ? Hx Hl]; subst.
    constructor; [now apply IH|].
    apply Forall_app. split; [exact Hall | now repeat constructor].
Qed.

Lemma Forall_filter_keep {A} (P : A -> Prop) (f : A -> bool) (l : list A) :
  Forall P l -> Forall P (filter f l).
Proof.
  rewrite !Forall_forall. intros H x Hx. apply filter_In in Hx. now apply H.
Qed.

(** A step that filters the window, keeps the counter and the window size,
    and loses no sequence number of the registry keeps the state well formed. *)
Lemma WellFormed_filter (s s' : State) (f : Z -> bool) :
  WellFormed s ->
  windowSize s' = windowSize s ->
  nextSequenceNumber s' = nextSequenceNumber s ->
  senderWindow s' = filter f (senderWindow s) ->
  incl (map sequenceNumber (packets s)) (map sequenceNumber (packets s')) ->
  WellFormed s'.
Proof.
  intros [Hws Hlen Hsort Hbelow Hframes Hnext] Ews Enext Ewin Hincl.
  constructor; rewrite ?Ews, ?Enext, ?Ewin; try assumption.
  - pose proof (filter_length_le f (senderWindow s)). lia.
  - now apply StronglySorted_filter_lt.
  - now apply Forall_filter_keep.
  - intros x Hx. apply filter_In in Hx. apply Hincl, Hframes, Hx.
Qed.

Lemma WellFormed_same_window (s s' : State) :
  WellFormed s ->
  windowSize s' = windowSize s ->
  nextSequenceNumber s' = nextSequenceNumber s ->
  senderWindow s' = senderWindow s ->
  incl (map sequenceNumber (packets s)) (map sequenceNumber (packets s')) ->
  WellFormed s'.
Proof.
  intros Hwf Ews Enext Ewin Hincl.
  apply (WellFormed_filter s s' (fun _ => true)); try assumption.
  rewrite Ewin. symmetry. apply filter_all. now apply Forall_forall.
Qed.

Lemma WellFormed_reset (s : State) :
  1 <= windowSize s <= 8 -> WellFormed (resetSimulation s).
Proof.
  intros Hws. constructor; simpl; try lia; try constructor; try assumption.
  intros x [].
Qed.

Ltac solve_incl :=
  cbn [packets setPackets setAcks setIsSimulating setNextSequenceNumber
       setExpectedSequenceNumber setSenderWindow setReceiverBuffer
       setWaitingForAck setShowDiagram];
  rewrite ?map_app, ?map_sequenceNumber_markStatus, ?map_sequenceNumber_markStatusById;
  auto using incl_refl, incl_appl.

(** Closes [WellFormed s'] when [s'] is [s] under setters that at most
    filter the window. *)
Ltac wf_step H :=
  first
    [ exact H
    | apply (WellFormed_same_window _ _ H); [reflexivity | reflexivity | reflexivity | solve_incl]
    | eapply (WellFormed_filter _ _ _ H); [reflexivity | reflexivity | reflexivity | solve_incl] ].

Lemma canSendPacket_window_room (s : State) :
  canSendPacket s = true ->
  protocol s = go_back_n \/ protocol s = selective_repeat ->
  Z.of_nat (List.length (senderWindow s)) < windowSize s.
Proof.
  unfold canSendPacket. intros H Hp.
  destruct (isSimulating s); [discriminate|].
  destruct Hp as [Hp|Hp]; rewrite Hp in H;
    destruct (Z.of_nat (List.length (senderWindow s)) >=? windowSize s) eqn:E;
    try discriminate; lia.
Qed.

Lemma WellFormed_sendPacket (s : State) (t : Z) :
  WellFormed s -> WellFormed (fst (sendPacket s t)).
Proof.
  intros Hwf. unfold sendPacket.
  destruct (canSendPacket s) eqn:Hcan; simpl; [|exact Hwf].
  destruct Hwf as [Hws Hlen Hsort Hbelow Hframes Hnext].
  assert (Hgrow : forall p : Packet,
            incl (senderWindow s) (map sequenceNumber (packets s ++ [p]))).
  { intros p. rewrite map_app. now apply incl_appl. }
  assert (Hbelow' : Forall (fun x => 0 <= x < nextSequenceNumber s + 1) (senderWindow s)).
  { eapply Forall_impl; [|exact Hbelow]. simpl. intros; lia. }
  assert (Hwindowed :
    (protocol s = go_back_n \/ protocol s = selective_repeat) ->
    WellFormed
      (s |> setIsSimulating (fun _ => true)
         |> setPackets (fun prev => prev ++
              [mkPacket t (nextSequenceNumber s) (frameData (nextSequenceNumber s))
                        sending t false])
         |> setSenderWindow (fun prev => prev ++ [nextSequenceNumber s])
         |> setNextSequenceNumber (fun prev => prev + 1))).
  { intros Hp. pose proof (canSendPacket_window_room s Hcan Hp) as Hroom.
    constructor; simpl; try lia.
    - rewrite length_app. simpl. lia.
    - apply StronglySorted_snoc; [exact Hsort|].
      eapply Forall_impl; [|exact Hbelow]. simpl. intros; lia.
    - apply Forall_app. split; [exact Hbelow'|]. repeat constructor; lia.
    - rewrite map_app. simpl. apply incl_app; [now apply incl_appl|].
      apply incl_appr. apply incl_refl. }
  destruct (protocol s) eqn:Hp.
  - constructor; simpl; try assumption; try lia; apply Hgrow.
  - constructor; simpl; try assumption; try lia; apply Hgrow.
  - apply Hwindowed. now left.
  - apply Hwindowed. now right.
Qed.

Lemma WellFormed_ackPolicy (s : State) (packet : Packet) (seq : Z) :
  WellFormed s -> WellFormed (fst (fst (ackPolicy s packet seq))).
Proof.
  intros Hwf. unfold ackPolicy. destruct (protocol s); simpl.
  - exact Hwf.
  - destruct (seq =? expectedSequenceNumber s); simpl; wf_step Hwf.
  - destruct (seq >=? expectedSequenceNumber s); [|exact Hwf].
    destruct (seq =? expectedSequenceNumber s); wf_step Hwf.
  - destruct (seq =? expectedSequenceNumber s); simpl.
    + destruct (drainBuffer (receiverBuffer s) (expectedSequenceNumber s + 1)).
      wf_step Hwf.
    + wf_step Hwf.
Qed.

Lemma WellFormed_sendAck (s : State) (seq t : Z) :
  WellFormed s -> WellFormed (fst (sendAck s seq t)).
Proof.
  intros Hwf. unfold sendAck.
  destruct (find _ (packets s)) as [packet|]; [|exact Hwf].
  pose proof (WellFormed_ackPolicy s packet seq Hwf) as Hpol.
  destruct (ackPolicy s packet seq) as [[s1 should] ty]. simpl in Hpol.
  destruct should; [|exact Hpol].
  destruct (negb (Protocol_eqb (protocol s) stop_and_wait)); simpl; wf_step Hpol.
Qed.

Lemma WellFormed_sendNack (s : State) (seq t : Z) :
  WellFormed s -> WellFormed (fst (sendNack s seq t)).
Proof.
  intros Hwf. unfold sendNack. simpl.
  destruct (negb (Protocol_eqb (protocol s) stop_and_wait)); wf_step Hwf.
Qed.

Lemma WellFormed_losePacket (s : State) (packetId t : Z) :
  WellFormed s -> WellFormed (fst (losePacket s packetId t)).
Proof.
  intros Hwf. unfold losePacket.
  destruct (find _ (packets s)); [destruct (protocol s)|]; simpl; wf_step Hwf.
Qed.

Lemma WellFormed_retransmitPacket (snap : State) (seq t : Z) (cur : State) :
  WellFormed cur -> WellFormed (fst (retransmitPacket snap seq t cur)).
Proof.
  intros Hwf. unfold retransmitPacket.
  destruct (find _ (packets snap)); simpl; wf_step Hwf.
Qed.

Lemma WellFormed_ackArrived (snap : State) (aid seq : Z) (ty : AckType) (cur : State) :
  WellFormed cur -> WellFormed (ackArrived snap aid seq ty cur).
Proof.
  intros Hwf. unfold ackArrived.
  destruct ty, (protocol snap); simpl; wf_step Hwf.
Qed.

Lemma WellFormed_nackArrived (snap : State) (aid seq t : Z) (cur : State) :
  WellFormed cur -> WellFormed (fst (nackArrived snap aid seq t cur)).
Proof.
  intros Hwf. unfold nackArrived.
  destruct (protocol snap); simpl;
    try apply WellFormed_retransmitPacket; wf_step Hwf.
Qed.

Lemma WellFormed_handle (c : Command) (s : State) (t : Z) :
  WellFormed s -> WellFormed (fst (handle c s t)).
Proof.
  intros Hwf. destruct c; simpl.
  - now apply WellFormed_sendPacket.
  - now apply WellFormed_sendAck.
  - now apply WellFormed_sendNack.
  - now apply WellFormed_losePacket.
  - apply WellFormed_reset. apply (wf_windowSize _ Hwf).
  - apply WellFormed_reset. apply (wf_windowSize _ Hwf).
  - destruct ((1 <=? n) && (n <=? 8)) eqn:E; simpl; [|exact Hwf].
    apply WellFormed_reset. simpl.
    apply andb_prop in E. destruct E. lia.
  - wf_step Hwf.
  - wf_step Hwf.
Qed.

Lemma WellFormed_run_callback (c : Callback) (t : Z) (cur : State) :
  WellFormed cur -> WellFormed (fst (run_callback c t cur)).
Proof.
  intros Hwf. destruct c; simpl.
  - wf_step Hwf.
  - destruct (Protocol_eqb (protocol snap) stop_and_wait); wf_step Hwf.
  - now apply WellFormed_retransmitPacket.
  - exact Hwf.
  - now apply WellFormed_ackArrived.
  - now apply WellFormed_nackArrived.
Qed.

Lemma WellFormed_initial : WellFormed initialState.
Proof.
  constructor; simpl; try lia; try constructor. intros x [].
Qed.

Lemma WellFormed_exec (e : Event) (w : World) :
  WellFormed (st w) -> WellFormed (st (exec e w)).
Proof.
  intros Hwf. destruct e as [c| |dt]; simpl.
  - unfold click. pose proof (WellFormed_handle c (st w) (now w) Hwf) as H.
    destruct (handle c (st w) (now w)). exact H.
  - unfold fire. destruct (pick (timers w)) as [[tm rest]|]; [|exact Hwf].
    pose proof (WellFormed_run_callback (cb tm) (Z.max (now w) (due tm)) (st w) Hwf) as H.
    destruct (run_callback (cb tm) (Z.max (now w) (due tm)) (st w)). exact H.
  - unfold wait. destruct (_ && _); exact Hwf.
Qed.

Lemma reachable_WellFormed (w : World) : reachable w -> WellFormed (st w).
Proof.
  induction 1 as [t0|w e _ IH].
  - exact WellFormed_initial.
  - now apply WellFormed_exec.
Qed.

(** ** Sender gating *)

Lemma sendPacket_refused (s : State) (t : Z) :
  canSendPacket s = false -> sendPacket s t = (s, []).
Proof. intros H. unfold sendPacket. now rewrite H. Qed.

(** [canSendPacket] of a windowed protocol with the busy flag clear. *)
Lemma canSendPacket_windowed (s : State) :
  protocol s = go_back_n \/ protocol s = selective_repeat ->
  isSimulating s = false ->
  canSendPacket s = true <->
  Z.of_nat (List.length (senderWindow s)) < windowSize s
  /\ (senderWindow s = []
      \/ exists base,
           Math_min (senderWindow s) = Num base
           /\ In base (senderWindow s)
           /\ Forall (fun x => base <= x) (senderWindow s)
           /\ base <= nextSequenceNumber s <= base + windowSize s - 1).
Proof.
  intros Hp Hbusy.
  assert (E : canSendPacket s =
    if Z.of_nat (List.length (senderWindow s)) >=? windowSize s then false else
    if (List.length (senderWindow s) =? 0)%nat then true else
    js_geb (nextSequenceNumber s) (Math_min (senderWindow s))
    && js_leb (nextSequenceNumber s)
              (js_add (Math_min (senderWindow s)) (windowSize s - 1))).
  { unfold canSendPacket. rewrite Hbusy. now destruct Hp as [Hp|Hp]; rewrite Hp. }
  rewrite E. clear E.
  destruct (Z.of_nat (List.length (senderWindow s)) >=? windowSize s) eqn:Hfull.
  { split; [discriminate | intros [Hlt _]; lia]. }
  assert (Hroom : Z.of_nat (List.length (senderWindow s)) < windowSize s) by lia.
  destruct (senderWindow s) as [|x xs] eqn:Hw.
  { simpl. split; [intros _; split; [exact Hroom | now left] | reflexivity]. }
  replace (List.length (x :: xs) =? 0)%nat with false by reflexivity.
  destruct (Math_min_nonempty x xs) as [m [Hm [Hin Hall]]].
  rewrite Hm. simpl js_geb. simpl js_leb. split.
  - intros H. apply andb_prop in H. destruct H as [H1 H2].
    split; [exact Hroom|]. right. exists m. repeat split; try assumption; lia.
  - intros [_ [Habs | [base [Hb [_ [_ Hrange]]]]]]; [discriminate|].
    injection Hb as <-. apply andb_true_intro. split; lia.
Qed.



(** ** The sender's sequence counter *)

Lemma sendPacket_next (s : State) (t : Z) :
  canSendPacket s = true ->
  nextSequenceNumber (fst (sendPacket s t)) = nextSequenceNumber s + 1
  /\ exists p, packets (fst (sendPacket s t)) = packets s ++ [p]
               /\ sequenceNumber p = nextSequenceNumber s
               /\ isRetransmission p = false.
Proof.
  intros H. unfold sendPacket. rewrite H. simpl.
  destruct (protocol s); simpl; (split; [reflexivity|]);
    eexists; (split; [reflexivity|]); split; reflexivity.
Qed.

Lemma retransmitPacket_next (snap : State) (seq t : Z) (cur : State) :
  nextSequenceNumber (fst (retransmitPacket snap seq t cur)) = nextSequenceNumber cur.
Proof. unfold retransmitPacket. now destruct (find _ (packets snap)). Qed.

(** A retransmission adds at most one frame; it carries the sequence number
    asked for, which is the number of a frame of the captured registry. *)
Lemma retransmitPacket_frames (snap : State) (seq t : Z) (cur : State) :
  packets (fst (retransmitPacket snap seq t cur)) = packets cur
  \/ exists original,
       In original (packets snap)
       /\ sequenceNumber original = seq
       /\ packets (fst (retransmitPacket snap seq t cur))
          = packets cur ++ [mkPacket t seq (data original) retransmitting t true].
Proof.
  unfold retransmitPacket.
  destruct (find _ (packets snap)) as [original|] eqn:E; simpl; [|now left].
  right. exists original. apply find_some in E. destruct E as [Hin Heq].
  split; [exact Hin|]. split; [now apply Z.eqb_eq | reflexivity].
Qed.

Lemma run_callback_next (c : Callback) (t : Z) (cur : State) :
  nextSequenceNumber (fst (run_callback c t cur)) = nextSequenceNumber cur.
Proof.
  destruct c; simpl; try reflexivity.
  - now destruct (Protocol_eqb (protocol snap) stop_and_wait).
  - apply retransmitPacket_next.
  - unfold ackArrived. now destruct ty, (protocol snap).
  - unfold nackArrived.
    destruct (protocol snap); simpl; rewrite ?retransmitPacket_next; reflexivity.
Qed.

Lemma sendAck_next (s : State) (seq t : Z) :
  nextSequenceNumber (fst (sendAck s seq t)) = nextSequenceNumber s.
Proof.
  unfold sendAck. destruct (find _ (packets s)) as [packet|]; [|reflexivity].
  assert (H : nextSequenceNumber (fst (fst (ackPolicy s packet seq)))
              = nextSequenceNumber s).
  { unfold ackPolicy. destruct (protocol s); simpl; try reflexivity.
    - now destruct (seq =? expectedSequenceNumber s).
    - now destruct (seq >=? expectedSequenceNumber s), (seq =? expectedSequenceNumber s).
    - destruct (seq =? expectedSequenceNumber s); simpl; [|reflexivity].
      now destruct (drainBuffer (receiverBuffer s) (expectedSequenceNumber s + 1)). }
  destruct (ackPolicy s packet seq) as [[s1 should] ty]. simpl in H.
  destruct should; simpl; [|exact H].
  now destruct (negb (Protocol_eqb (protocol s) stop_and_wait)).
Qed.

Lemma handle_next (c : Command) (s : State) (t : Z) :
  isReset (Click c) = false ->
  nextSequenceNumber s <= nextSequenceNumber (fst (handle c s t))
                       <= nextSequenceNumber s + 1.
Proof.
  destruct c; simpl; intros Hr; try discriminate; try lia.
  - destruct (canSendPacket s) eqn:E.
    + destruct (sendPacket_next s t E) as [H _]. lia.
    + rewrite (sendPacket_refused s t E). simpl. lia.
  - rewrite sendAck_next. lia.
  - unfold sendNack. simpl.
    destruct (negb (Protocol_eqb (protocol s) stop_and_wait)); simpl; lia.
  - unfold losePacket.
    destruct (find _ (packets s)); [destruct (protocol s)|]; simpl; lia.
Qed.

Lemma exec_next (e : Event) (w : World) :
  isReset e = false ->
  nextSequenceNumber (st w) <= nextSequenceNumber (st (exec e w)).
Proof.
  intros Hr. destruct e as [c| |dt]; simpl.
  - unfold click. pose proof (handle_next c (st w) (now w) Hr) as H.
    destruct (handle c (st w) (now w)). simpl in *. lia.
  - unfold fire. destruct (pick (timers w)) as [[tm rest]|]; [|lia].
    pose proof (run_callback_next (cb tm) (Z.max (now w) (due tm)) (st w)) as H.
    destruct (run_callback (cb tm) (Z.max (now w) (due tm)) (st w)).
    simpl in *. lia.
  - unfold wait. destruct (_ && _); simpl; lia.
Qed.

(** A reset, a protocol choice and a window-size choice from the list all
    run [resetSimulation], which writes 0. *)
Lemma reset_next_zero (w : World) :
  nextSequenceNumber (st (exec (Click ClickReset) w)) = 0
  /\ (forall p, nextSequenceNumber (st (exec (Click (SelectProtocol p)) w)) = 0)
  /\ (forall n, 1 <= n <= 8 ->
        nextSequenceNumber (st (exec (Click (SelectWindowSize n)) w)) = 0).
Proof.
  split; [reflexivity|]. split; [reflexivity|].
  intros n Hn. simpl. unfold click. simpl.
  replace ((1 <=? n) && (n <=? 8)) with true; [reflexivity|].
  symmetry. apply andb_true_intro. split; lia.
Qed.

(** A window size the list does not offer is refused: nothing changes. *)
Lemma window_size_outside_list (n : Z) (w : World) :
  ~ (1 <= n <= 8) -> exec (Click (SelectWindowSize n)) w = w.
Proof.
  intros Hn. simpl. unfold click. simpl.
  replace ((1 <=? n) && (n <=? 8)) with false.
  - simpl. rewrite app_nil_r. now destruct w.
  - symmetry. apply Bool.not_true_is_false. intros H.
    apply andb_prop in H. destruct H. apply Hn. lia.
Qed.

(** C8. Under every protocol [nextSequenceNumber] is 0 at the first render;
    a [sendPacket] that passes the gate raises it by exactly 1 and appends
    one frame carrying the old value and not flagged as a retransmission
    (a refused [sendPacket] changes nothing); [retransmitPacket] and every
    timer callback leave it as it is, the frame a retransmission appends
    reusing the number of a frame already in the captured registry; an
    event other than a reset or a reconfiguration never lowers it; a reset,
    a protocol choice and a window-size choice each set it to 0, from any
    world whatever; so it is never negative.  (A window size outside the
    list 1..8, which the page cannot send, changes nothing at all.) *)
Theorem nextSequenceNumber_counts_sends :
  (forall t0, nextSequenceNumber (st (initialWorld t0)) = 0)
  /\ (forall s t, canSendPacket s = true ->
        nextSequenceNumber (fst (sendPacket s t)) = nextSequenceNumber s + 1
        /\ exists p, packets (fst (sendPacket s t)) = packets s ++ [p]
                     /\ sequenceNumber p = nextSequenceNumber s
                     /\ isRetransmission p = false)
  /\ (forall s t, canSendPacket s = false -> sendPacket s t = (s, []))
  /\ (forall snap seq t cur,
        nextSequenceNumber (fst (retransmitPacket snap seq t cur))
        = nextSequenceNumber cur
        /\ (packets (fst (retransmitPacket snap seq t cur)) = packets cur
            \/ exists original,
                 In original (packets snap)
                 /\ sequenceNumber original = seq
                 /\ packets (fst (retransmitPacket snap seq t cur))
                    = packets cur
                      ++ [mkPacket t seq (data original) retransmitting t true]))
  /\ (forall c t cur,
        nextSequenceNumber (fst (run_callback c t cur)) = nextSequenceNumber cur)
  /\ (forall e w, isReset e = false ->
        nextSequenceNumber (st w) <= nextSequenceNumber (st (exec e w)))
  /\ (forall w, nextSequenceNumber (st (exec (Click ClickReset) w)) = 0)
  /\ (forall p w, nextSequenceNumber (st (exec (Click (SelectProtocol p)) w)) = 0)
  /\ (forall n w, 1 <= n <= 8 ->
        nextSequenceNumber (st (exec (Click (SelectWindowSize n)) w)) = 0)
  /\ (forall n w, ~ (1 <= n <= 8) -> exec (Click (SelectWindowSize n)) w = w)
  /\ (forall w, reachable w -> 0 <= nextSequenceNumber (st w)).
Proof.
  split; [reflexivity|].
  split; [exact sendPacket_next|].
  split; [exact sendPacket_refused|].
  split; [intros; split; [apply retransmitPacket_next | apply retransmitPacket_frames]|].
  split; [exact run_callback_next|].
  split; [exact exec_next|].
  split; [intros w; apply (reset_next_zero w)|].
  split; [intros p w; apply (reset_next_zero w)|].
  split; [intros n w; apply (reset_next_zero w)|].
  split; [exact window_size_outside_list|].
  intros w Hw. apply wf_next. now apply reachable_WellFormed.
Qed.

(** The theorem at the Go-Back-N world holding frame 0: the counter is 1,
    the next send takes number 1 and leaves the counter at 2, and a reset
    or the choice of window size 3 puts it back to 0. *)
Lemma nextSequenceNumber_counts_sends_witness :
  nextSequenceNumber (st gbn_one_received) = 1
  /\ nextSequenceNumber (fst (sendPacket (st gbn_one_received) 1100)) = 2
  /\ nextSequenceNumber (st (exec (Click ClickReset) gbn_one_received)) = 0
  /\ nextSequenceNumber (st (exec (Click (SelectWindowSize 3)) gbn_one_received)) = 0.
Proof.
  destruct nextSequenceNumber_counts_sends
    as [_ [Hsend [_ [_ [_ [_ [Hreset [_ [Hsize _]]]]]]]]].
  destruct (Hsend (st gbn_one_received) 1100) as [Hnext _].
  - vm_compute. reflexivity.
  - assert (E : nextSequenceNumber (st gbn_one_received) = 1)
      by (vm_compute; reflexivity).
    split; [exact E|]. split; [rewrite Hnext, E; reflexivity|].
    split; [apply Hreset | apply Hsize; lia].
Defined.

(** ** Stop-and-Wait acknowledgment *)

(** C7, as the code has it.  Under Stop-and-Wait, [sendAck seq] on a frame in
    status received appends nothing to the acknowledgment log, at the call
    or when its timer fires.  When [seq] is the expected number the outcome
    is ACK, [expectedSequenceNumber] goes up by 1 and the timer marks the
    frames numbered [seq] acknowledged and clears [waitingForAck].  When it
    is not, the outcome is NACK, the call changes nothing and its timer
    changes nothing either: the frame stays received and [waitingForAck] is
    not cleared. *)
Theorem stop_and_wait_acknowledge (s : State) (seq t : Z)
    (Hsw : protocol s = stop_and_wait)
    (Hrec : hasReceived seq (packets s) = true) :
  acks (fst (sendAck s seq t)) = acks s
  /\ (forall ty cur, acks (ackArrived s t seq ty cur) = acks cur)
  /\ (seq = expectedSequenceNumber s ->
        sendAck s seq t
        = (s |> setExpectedSequenceNumber (fun prev => prev + 1),
           [mkTimer (t + 500) (CbAckArrived s t seq ACK)])
        /\ forall cur,
             ackArrived s t seq ACK cur
             = (cur |> setPackets (markStatus seq acknowledged)
                    |> setWaitingForAck (fun _ => false)))
  /\ (seq <> expectedSequenceNumber s ->
        sendAck s seq t = (s, [mkTimer (t + 500) (CbAckArrived s t seq NACK)])
        /\ forall cur, ackArrived s t seq NACK cur = cur).
Proof.
  destruct (find_received_present _ _ Hrec) as [packet Hfind].
  assert (Hin : seq = expectedSequenceNumber s ->
        sendAck s seq t
        = (s |> setExpectedSequenceNumber (fun prev => prev + 1),
           [mkTimer (t + 500) (CbAckArrived s t seq ACK)])).
  { intros E. unfold sendAck, ackPolicy. rewrite Hfind, Hsw.
    apply Z.eqb_eq in E. rewrite E. reflexivity. }
  assert (Hout : seq <> expectedSequenceNumber s ->
        sendAck s seq t = (s, [mkTimer (t + 500) (CbAckArrived s t seq NACK)])).
  { intros E. unfold sendAck, ackPolicy. rewrite Hfind, Hsw.
    apply Z.eqb_neq in E. rewrite E. reflexivity. }
  split.
  { destruct (Z.eq_dec seq (expectedSequenceNumber s)) as [E|E].
    - now rewrite (Hin E).
    - now rewrite (Hout E). }
  split.
  { intros ty cur. unfold ackArrived. rewrite Hsw. now destruct ty. }
  split.
  - intros E. split; [exact (Hin E)|].
    intros cur. unfold ackArrived. rewrite Hsw. reflexivity.
  - intros E. split; [exact (Hout E)|].
    intros cur. unfold ackArrived. rewrite Hsw. reflexivity.
Qed.

(** The theorem at the Stop-and-Wait world where frame 1 has arrived while
    0 is expected: acknowledging 1 changes nothing. *)
Lemma stop_and_wait_acknowledge_witness :
  sendAck (st sw_frame1_received) 1 3800
  = (st sw_frame1_received,
     [mkTimer (3800 + 500) (CbAckArrived (st sw_frame1_received) 3800 1 NACK)]).
Proof.
  destruct (stop_and_wait_acknowledge (st sw_frame1_received) 1 3800)
    as [_ [_ [_ Hout]]].
  - vm_compute. reflexivity.
  - vm_compute. reflexivity.
  - apply Hout. vm_compute. discriminate.
Defined.

(** C7 as stated fails: in the Stop-and-Wait world where frame 1 is received
    and 0 is expected, after [sendAck 1] and its timer the frame numbered 1
    is still received, not acknowledged, and [waitingForAck] is still set. *)
Lemma stop_and_wait_mismatch_stays_received :
  protocol (st sw_frame1_received) = stop_and_wait
  /\ hasReceived 1 (packets (st sw_frame1_received)) = true
  /\ timers sw_frame1_received = []
  /\ timers (run [Click (ClickAck 1); Fire] sw_frame1_received) = []
  /\ map status
       (filter (fun p => sequenceNumber p =? 1)
          (packets (st (run [Click (ClickAck 1); Fire] sw_frame1_received))))
     = [received]
  /\ waitingForAck (st (run [Click (ClickAck 1); Fire] sw_frame1_received)) = true.
Proof. vm_compute. repeat split; reflexivity. Qed.

(** ** Selective-Repeat: the reorder buffer *)

(** The pass of lines 200-206 over a buffer filled in the order [e + 2],
    [e + 1]: the first frame is met while [e + 1] is expected and is kept. *)
Lemma drainBuffer_descending (p2 p1 : Packet) (e : Z) :
  sequenceNumber p2 = e + 2 ->
  sequenceNumber p1 = e + 1 ->
  drainBuffer [p2; p1] (e + 1) = ([p2], e + 2).
Proof.
  intros H2 H1. simpl. rewrite H2, H1.
  replace (e + 2 =? e + 1) with false by lia.
  rewrite Z.eqb_refl. f_equal. lia.
Qed.

(** The same pass over the ascending buffer [e + 1], [e + 2] removes both. *)
Lemma drainBuffer_ascending (p1 p2 : Packet) (e : Z) :
  sequenceNumber p1 = e + 1 ->
  sequenceNumber p2 = e + 2 ->
  drainBuffer [p1; p2] (e + 1) = ([], e + 3).
Proof.
  intros H1 H2. simpl. rewrite H1, H2, Z.eqb_refl.
  replace (e + 2 =? e + 1 + 1) with true by lia. f_equal. lia.
Qed.

(** C1 evaluated.  Selective-Repeat, [expectedSequenceNumber] 0, frames 0, 1
    and 2 received, buffer empty; [sendAck 2], [sendAck 1], [sendAck 0] in
    that order.  The buffer then holds frame 2 and
    [expectedSequenceNumber] is 2, not 3: the single pass of the filter
    meets frame 2 before frame 1.  The outcome is the same whether the
    acknowledgment timers fire between the calls or after them.  In the
    order 1, 2, 0 the same pass does empty the buffer and reach 3. *)
Theorem selective_repeat_ack_2_1_0 :
  protocol (st sr_three_received) = selective_repeat
  /\ expectedSequenceNumber (st sr_three_received) = 0
  /\ receiverBuffer (st sr_three_received) = []
  /\ map (fun p => (sequenceNumber p, status p)) (packets (st sr_three_received))
     = [(0, received); (1, received); (2, received)]
  /\ expectedSequenceNumber
       (st (run [Click (ClickAck 2); Wait 100; Click (ClickAck 1); Wait 100;
                 Click (ClickAck 0)] sr_three_received)) = 2
  /\ map sequenceNumber
       (receiverBuffer
          (st (run [Click (ClickAck 2); Wait 100; Click (ClickAck 1); Wait 100;
                    Click (ClickAck 0)] sr_three_received))) = [2]
  /\ expectedSequenceNumber
       (st (run [Click (ClickAck 2); Fire; Click (ClickAck 1); Fire;
                 Click (ClickAck 0); Fire] sr_three_received)) = 2
  /\ map sequenceNumber
       (receiverBuffer
          (st (run [Click (ClickAck 2); Fire; Click (ClickAck 1); Fire;
                    Click (ClickAck 0); Fire] sr_three_received))) = [2]
  /\ expectedSequenceNumber
       (st (run [Click (ClickAck 1); Wait 100; Click (ClickAck 2); Wait 100;
                 Click (ClickAck 0)] sr_three_received)) = 3
  /\ receiverBuffer
       (st (run [Click (ClickAck 1); Wait 100; Click (ClickAck 2); Wait 100;
                 Click (ClickAck 0)] sr_three_received)) = [].
Proof. vm_compute. repeat split; reflexivity. Qed.

(** C3 evaluated.  A reachable Selective-Repeat world whose reorder buffer
    holds a frame numbered [expectedSequenceNumber]: the world left by
    acknowledging 2, 1, 0 with all timers fired. *)
Theorem reorder_buffer_holds_expected :
  exists w,
    reachable w
    /\ protocol (st w) = selective_repeat
    /\ timers w = []
    /\ exists p, In p (receiverBuffer (st w))
                 /\ sequenceNumber p <= expectedSequenceNumber (st w).
Proof.
  exists (run [Click (ClickAck 2); Fire; Click (ClickAck 1); Fire;
               Click (ClickAck 0); Fire] sr_three_received).
  split.
  { apply reachable_run. unfold sr_three_received.
    apply reachable_run. apply reach_init. }
  split; [vm_compute; reflexivity|].
  split; [vm_compute; reflexivity|].
  exists (mkPacket 2200 2 (frameData 2) received 2200 false).
  split; [vm_compute; left; reflexivity | vm_compute; discriminate].
Qed.

(** ** Go-Back-N: the in-order acknowledgment *)

(** What line 183 keeps: with the closure's [expectedSequenceNumber] still
    the old value, the window members at or above it, the acknowledged
    number included. *)
Lemma go_back_n_in_order_ack (s : State) (seq t : Z) :
  protocol s = go_back_n ->
  hasReceived seq (packets s) = true ->
  seq = expectedSequenceNumber s ->
  expectedSequenceNumber (fst (sendAck s seq t)) = expectedSequenceNumber s + 1
  /\ senderWindow (fst (sendAck s seq t))
     = filter (fun x => expectedSequenceNumber s <=? x) (senderWindow s).
Proof.
  intros Hgbn Hrec E.
  destruct (find_received_present _ _ Hrec) as [packet Hfind].
  unfold sendAck, ackPolicy. rewrite Hfind, Hgbn.
  replace (seq >=? expectedSequenceNumber s) with true by lia.
  replace (seq =? expectedSequenceNumber s) with true by lia.
  simpl. split; [reflexivity|].
  apply filter_ext. intros x. lia.
Qed.

(** The out-of-order acknowledgment: above the expected number the
    acknowledged number leaves the window at the call (line 186), below it
    the guard of line 178 leaves the window alone; either way the record is
    an ACK and the timer removes the number (line 235). *)
Lemma go_back_n_out_of_order_ack (s : State) (seq t : Z) :
  protocol s = go_back_n ->
  hasReceived seq (packets s) = true ->
  seq <> expectedSequenceNumber s ->
  expectedSequenceNumber (fst (sendAck s seq t)) = expectedSequenceNumber s
  /\ senderWindow (fst (sendAck s seq t))
     = (if seq >? expectedSequenceNumber s
        then filter (fun x => negb (x =? seq)) (senderWindow s)
        else senderWindow s)
  /\ snd (sendAck s seq t) = [mkTimer (t + 500) (CbAckArrived s t seq ACK)]
  /\ forall cur,
       senderWindow (ackArrived s t seq ACK cur)
       = filter (fun x => negb (x =? seq)) (senderWindow cur).
Proof.
  intros Hgbn Hrec E.
  destruct (find_received_present _ _ Hrec) as [packet Hfind].
  unfold sendAck, ackPolicy, ackArrived. rewrite Hfind, Hgbn.
  replace (seq =? expectedSequenceNumber s) with false by lia.
  destruct (seq >? expectedSequenceNumber s) eqn:Hgt.
  - replace (seq >=? expectedSequenceNumber s) with true by lia.
    simpl. repeat split; reflexivity.
  - replace (seq >=? expectedSequenceNumber s) with false by lia.
    simpl. repeat split; reflexivity.
Qed.

(** C2 evaluated.  Go-Back-N, window [0], [expectedSequenceNumber] 0, frame 0
    received; [sendAck 0].  At the call [expectedSequenceNumber] becomes 1
    and an ACK record is appended, but 0 is still in the window; it leaves
    only when the acknowledgment timer fires. *)
Theorem go_back_n_in_order_ack_keeps_number :
  protocol (st gbn_one_received) = go_back_n
  /\ expectedSequenceNumber (st gbn_one_received) = 0
  /\ senderWindow (st gbn_one_received) = [0]
  /\ hasReceived 0 (packets (st gbn_one_received)) = true
  /\ expectedSequenceNumber (st (click (ClickAck 0) gbn_one_received)) = 1
  /\ map ack_type (acks (st (click (ClickAck 0) gbn_one_received))) = [ACK]
  /\ senderWindow (st (click (ClickAck 0) gbn_one_received)) = [0]
  /\ senderWindow (st (fire (click (ClickAck 0) gbn_one_received))) = [].
Proof. vm_compute. repeat split; reflexivity. Qed.

(** ** Success rate *)

(** C4 evaluated.  The cell is 0 on the empty registry and 100 when every
    first send is acknowledged.  A reset between a NACK and its timeout
    leaves a registry whose only frame is a retransmission: the registry is
    not empty, the denominator is 0, and the cell is [NaN]; once that frame
    is acknowledged the cell is [Infinity]. *)
Theorem success_rate_without_first_sends :
  successRate initialState = 0%float
  /\ successRate
       (st (run [Click (ClickAck 0); Fire; Click (ClickAck 1); Fire;
                 Click (ClickAck 2); Fire] sr_three_received))
     = 100%float
  /\ reachable reset_before_nack_arrives
  /\ map isRetransmission (packets (st reset_before_nack_arrives)) = [true]
  /\ successRate (st reset_before_nack_arrives) = nan
  /\ successRate
       (st (run [Fire; Wait 100; Click (ClickAck 0); Fire] reset_before_nack_arrives))
     = infinity.
Proof.
  split; [vm_compute; reflexivity|].
  split; [vm_compute; reflexivity|].
  split.
  { unfold reset_before_nack_arrives. apply reachable_run. apply reach_init. }
  vm_compute. repeat split; reflexivity.
Qed.

(** ** Go-Back-N: the whole window is resent *)

Lemma pick_none (ts : list Timer) : pick ts = None -> ts = [].
Proof.
  destruct ts as [|t rest]; [reflexivity|]. simpl.
  destruct (pick rest) as [[t' rest']|]; [|discriminate].
  destruct (due t <=? due t'); discriminate.
Qed.

(** [pick] takes out one timer: those set before it are due strictly later,
    those set after it no earlier. *)
Lemma pick_some (ts : list Timer) (t : Timer) (rest : list Timer) :
  pick ts = Some (t, rest) ->
  exists l1 l2,
    ts = l1 ++ t :: l2 /\ rest = l1 ++ l2
    /\ Forall (fun u => due t < due u) l1
    /\ Forall (fun u => due t <= due u) l2.
Proof.
  revert t rest. induction ts as [|a ts IH]; intros t rest H; [discriminate|].
  simpl in H. destruct (pick ts) as [[t' rest']|] eqn:E.
  - destruct (IH t' rest' eq_refl) as [l1 [l2 [Hts [Hrest [H1 H2]]]]].
    destruct (due a <=? due t') eqn:Hle; injection H as <- <-.
    + exists [], ts. repeat split; [constructor|].
      rewrite Hts. apply Forall_app. split.
      * eapply Forall_impl; [|exact H1]. simpl. intros; lia.
      * constructor; [lia|]. eapply Forall_impl; [|exact H2]. simpl. intros; lia.
    + exists (a :: l1), l2. rewrite Hts, Hrest. repeat split.
      * constructor; [lia | exact H1].
      * exact H2.
  - injection H as <- <-. apply pick_none in E. subst ts.
    exists [], []. repeat split; constructor.
Qed.

Lemma pendingRetransmits_app (l1 l2 : list Timer) :
  pendingRetransmits (l1 ++ l2) = pendingRetransmits l1 ++ pendingRetransmits l2.
Proof. unfold pendingRetransmits. apply flat_map_app. Qed.

Lemma pendingRetransmits_due (l : list Timer) (d x : Z) :
  In (d, x) (pendingRetransmits l) -> exists tm, In tm l /\ due tm = d.
Proof.
  unfold pendingRetransmits. intros H. apply in_flat_map in H.
  destruct H as [tm [Hin Htm]]. exists tm. split; [exact Hin|].
  destruct (cb tm); simpl in Htm; try contradiction.
  destruct Htm as [E|[]]. now injection E.
Qed.

Lemma map_frameKey_markStatusById (pid : Z) (st' : PacketStatus) (ps : list Packet) :
  map frameKey (markStatusById pid st' ps) = map frameKey ps.
Proof.
  unfold markStatusById. rewrite map_map. apply map_ext.
  intros p. now destruct (id p =? pid).
Qed.

Lemma map_frameKey_markStatus (seq : Z) (st' : PacketStatus) (ps : list Packet) :
  map frameKey (markStatus seq st' ps) = map frameKey ps.
Proof.
  unfold markStatus. rewrite map_map. apply map_ext.
  intros p. now destruct (sequenceNumber p =? seq).
Qed.

(** The resend phase, for a render [s] captured by the NACK's closure. *)
Section GoBackResend.

Variable s : State.
Hypothesis s_wf : WellFormed s.

(** A window member is found in the registry of a well-formed state. *)
Lemma window_member_found (x : Z) :
  In x (senderWindow s) ->
  exists original,
    find (fun p => sequenceNumber p =? x) (packets s) = Some original.
Proof.
  intros Hin. apply (wf_frames _ s_wf) in Hin.
  apply in_map_iff in Hin. destruct Hin as [p [Hseq Hp]].
  apply (find_present _ _ p Hp). now apply Z.eqb_eq.
Qed.

Lemma retransmit_member (x t : Z) (cur : State) :
  In x (senderWindow s) ->
  exists original,
    find (fun p => sequenceNumber p =? x) (packets s) = Some original
    /\ retransmitPacket s x t cur
       = (cur |> setPackets
                   (fun prev => prev ++ [mkPacket t x (data original) retransmitting t true]),
          [mkTimer (t + 1000) (CbRetxArrived s t)]).
Proof.
  intros Hin. destruct (window_member_found x Hin) as [original Hfind].
  exists original. split; [exact Hfind|].
  unfold retransmitPacket. now rewrite Hfind.
Qed.

Lemma StronglySorted_app_before {A} (R : A -> A -> Prop) (l1 l2 : list A) (a : A) :
  StronglySorted R (l1 ++ a :: l2) -> Forall (fun b => R b a) l1.
Proof.
  induction l1 as [|b l1 IH]; simpl; intros H; [constructor|].
  inversion H as [|? ? Hs Hall]; subst. constructor.
  - rewrite Forall_forall in Hall. apply Hall. apply in_or_app. right. now left.
  - now apply IH.
Qed.

(** One timer of a go-back resend fires: either the first pending
    retransmission, which appends its frame and sets its arrival, or an
    arrival, which touches statuses only. *)
Lemma resend_fire (w : World) :
  Forall (resendTimer s) (timers w) ->
  staggered (timers w) ->
  timers w <> [] ->
  Forall (resendTimer s) (timers (fire w))
  /\ staggered (timers (fire w))
  /\ ((exists d x,
         pendingRetransmits (timers w) = (d, x) :: pendingRetransmits (timers (fire w))
         /\ List.length (timers (fire w)) = List.length (timers w)
         /\ map frameKey (packets (st (fire w)))
            = map frameKey (packets (st w)) ++ [(x, true)])
      \/ (pendingRetransmits (timers (fire w)) = pendingRetransmits (timers w)
          /\ S (List.length (timers (fire w))) = List.length (timers w)
          /\ map frameKey (packets (st (fire w))) = map frameKey (packets (st w)))).
Proof.
  intros Hall Hstag Hne. unfold fire.
  destruct (pick (timers w)) as [[t rest]|] eqn:Hpick;
    [|now apply pick_none in Hpick].
  destruct (pick_some _ _ _ Hpick) as [l1 [l2 [Hts [Hrest [Hl1 Hl2]]]]].
  rewrite Hts in Hall, Hstag |- *.
  apply Forall_app in Hall. destruct Hall as [Hall1 Hall2].
  apply Forall_cons_iff in Hall2. destruct Hall2 as [Ht Hall2'].
  assert (Hrest_all : Forall (resendTimer s) rest).
  { rewrite Hrest. apply Forall_app. now split. }
  unfold staggered in *.
  rewrite pendingRetransmits_app in Hstag. simpl in Hstag.
  destruct Ht as [[x [Hcb Hx]]|[pid Hcb]]; rewrite Hcb in *; simpl in Hstag.
  - (* the first pending retransmission *)
    assert (Hnone : pendingRetransmits l1 = []).
    { pose proof (StronglySorted_app_before _ _ _ _ Hstag) as Hbefore.
      destruct (pendingRetransmits l1) as [|[d' x'] l] eqn:E; [reflexivity|].
      exfalso. inversion Hbefore as [|? ? Hlt _]; subst. simpl in Hlt.
      destruct (pendingRetransmits_due l1 d' x') as [tm [Htm Hdue]].
      { rewrite E. now left. }
      rewrite Forall_forall in Hl1. specialize (Hl1 tm Htm). lia. }
    rewrite Hnone in Hstag. simpl in Hstag.
    simpl run_callback.
    destruct (retransmit_member x (Z.max (now w) (due t)) (st w) Hx)
      as [original [_ Hrun]].
    rewrite Hrun. cbn [timers st packets setPackets].
    rewrite Hrest, !pendingRetransmits_app, Hnone. simpl.
    rewrite Hcb, app_nil_r. simpl.
    split.
    { apply Forall_app. split; [now rewrite <- Hrest|].
      constructor; [|constructor]. right. now exists (Z.max (now w) (due t)). }
    split.
    { now inversion Hstag. }
    left. exists (due t), x. split; [reflexivity|]. split.
    + rewrite !length_app. simpl. lia.
    + rewrite map_app. reflexivity.
  - (* an arrival *)
    simpl run_callback.
    rewrite Hrest, app_nil_r, !pendingRetransmits_app. simpl.
    rewrite Hcb. simpl. rewrite ?pendingRetransmits_app.
    split; [now rewrite <- Hrest|]. split; [exact Hstag|].
    right. split; [reflexivity|]. split.
    + rewrite !length_app. simpl. lia.
    + cbn [st]. destruct (Protocol_eqb (protocol s) stop_and_wait);
        cbn [packets setPackets setWaitingForAck];
        apply map_frameKey_markStatusById.
Qed.

(** All timers of a go-back resend fire: the registry gains one frame per
    pending retransmission, in the order they were set. *)
Lemma resend_fires (k : nat) :
  forall w,
    Forall (resendTimer s) (timers w) ->
    staggered (timers w) ->
    (List.length (timers w) + List.length (pendingRetransmits (timers w)))%nat = k ->
    timers (fires k w) = []
    /\ map frameKey (packets (st (fires k w)))
       = map frameKey (packets (st w))
         ++ map (fun dx => (snd dx, true)) (pendingRetransmits (timers w)).
Proof.
  induction k as [|k IH]; intros w Hall Hstag Hk.
  - assert (Hnil : timers w = []) by (destruct (timers w); [reflexivity | simpl in Hk; lia]).
    simpl. rewrite Hnil. simpl. now rewrite app_nil_r.
  - assert (Hne : timers w <> []).
    { intros E. rewrite E in Hk. simpl in Hk. lia. }
    destruct (resend_fire w Hall Hstag Hne) as [Hall' [Hstag' Hcase]].
    simpl fires.
    destruct Hcase as [[d [x [Hp [Hlen Hkeys]]]]|[Hp [Hlen Hkeys]]].
    + destruct (IH (fire w) Hall' Hstag') as [Hdone Hfinal].
      { rewrite Hp in Hk. simpl in Hk. lia. }
      split; [exact Hdone|].
      rewrite Hfinal, Hkeys, Hp. simpl. now rewrite <- app_assoc.
    + destruct (IH (fire w) Hall' Hstag') as [Hdone Hfinal].
      { rewrite Hp. lia. }
      split; [exact Hdone|]. now rewrite Hfinal, Hkeys, Hp.
Qed.

(** Every window member is at or above [Math.min(...senderWindow)]. *)
Lemma filter_from_base (W : list Z) :
  filter (fun x => js_geb x (Math_min W)) W = W.
Proof.
  destruct W as [|x xs]; [reflexivity|].
  destruct (Math_min_nonempty x xs) as [m [Hm [_ Hall]]].
  rewrite Hm. apply filter_all.
  eapply Forall_impl; [|exact Hall]. simpl. intros; lia.
Qed.

Lemma stagger_nth (t i : Z) (l : list Z) (k : nat) (x : Z) :
  nth_error l k = Some x ->
  nth_error (stagger s t i l) k
  = Some (mkTimer (t + (i + Z.of_nat k) * 500) (CbRetransmit s x)).
Proof.
  revert i k. induction l as [|y l IH]; intros i k H.
  - now destruct k.
  - destruct k as [|k]; simpl in *.
    + injection H as ->. do 3 f_equal. lia.
    + rewrite (IH (i + 1) k H). do 3 f_equal. lia.
Qed.

Lemma stagger_length (t i : Z) (l : list Z) :
  List.length (stagger s t i l) = List.length l.
Proof. revert i. induction l as [|y l IH]; intros i; simpl; [|rewrite IH]; reflexivity. Qed.

Lemma stagger_resend (t i : Z) (l : list Z) :
  incl l (senderWindow s) -> Forall (resendTimer s) (stagger s t i l).
Proof.
  revert i. induction l as [|y l IH]; intros i Hincl; simpl; constructor.
  - left. exists y. split; [reflexivity|]. apply Hincl. now left.
  - apply IH. intros z Hz. apply Hincl. now right.
Qed.

Lemma stagger_pending (t i : Z) (l : list Z) :
  map snd (pendingRetransmits (stagger s t i l)) = l
  /\ Forall (fun dx => t + i * 500 <= fst dx) (pendingRetransmits (stagger s t i l))
  /\ staggered (stagger s t i l).
Proof.
  unfold staggered. revert i. induction l as [|y l IH]; intros i; simpl.
  - repeat split; constructor.
  - destruct (IH (i + 1)) as [Hmap [Hlow Hsorted]].
    split; [now rewrite Hmap|]. split.
    + constructor; [simpl; lia|].
      eapply Forall_impl; [|exact Hlow]. simpl. intros; lia.
    + constructor; [exact Hsorted|].
      eapply Forall_impl; [|exact Hlow]. simpl. intros; lia.
Qed.

End GoBackResend.

(** In a world with no timer pending, a NACK under Go-Back-N and the
    [2 + 2 * |window|] timers that follow. *)
Lemma go_back_n_nack_run (w : World) (seq : Z) :
  WellFormed (st w) ->
  protocol (st w) = go_back_n ->
  timers w = [] ->
  timers (fires (2 + 2 * List.length (senderWindow (st w))) (click (ClickNack seq) w))
  = []
  /\ map frameKey
       (packets (st (fires (2 + 2 * List.length (senderWindow (st w)))
                           (click (ClickNack seq) w))))
     = map frameKey (packets (st w))
       ++ map (fun x => (x, true)) (senderWindow (st w)).
Proof.
  intros Hwf Hgbn Hquiet. destruct w as [s t ts].
  cbn [st now timers] in *. subst ts.
  set (W := senderWindow s).
  assert (Hcall : handle (ClickNack seq) s t
       = (s |> setAcks (fun prev => prev ++ [mkAckPacket t seq ack_sending t NACK]),
          [mkTimer (t + 500) (CbNackArrived s t seq)])).
  { simpl. unfold sendNack. rewrite Hgbn. reflexivity. }
  rewrite (click_eq (ClickNack seq) (mkWorld s t []) _ _ Hcall).
  cbn [st now timers app].
  replace (2 + 2 * List.length W)%nat with (S (S (2 * List.length W))) by lia.
  remember (2 * List.length W)%nat as n eqn:Hn.
  cbn [fires].
  erewrite (fire_single (mkWorld _ _ _));
    [ | reflexivity | cbn [due now]; lia
      | cbn [cb due st run_callback]; unfold nackArrived; rewrite Hgbn; reflexivity ].
  erewrite (fire_single (mkWorld _ _ _));
    [ | reflexivity | cbn [due now]; lia
      | cbn [cb due st run_callback]; unfold retransmitFromSequence;
        rewrite filter_from_base; reflexivity ].
  fold W.
  destruct (stagger_pending s (t + 500 + 500) 0 W) as [Hmap [_ Hstag]].
  match goal with
  | |- context [fires _ ?w3] =>
      destruct (resend_fires s Hwf n w3) as [Hdone Hkeys]
  end.
  - cbn [timers]. apply stagger_resend. apply incl_refl.
  - exact Hstag.
  - cbn [timers]. rewrite stagger_length.
    rewrite <- (length_map snd (pendingRetransmits _)), Hmap. lia.
  - split; [exact Hdone|].
    rewrite Hkeys. cbn [st timers packets setPackets setAcks].
    rewrite map_frameKey_markStatus. f_equal.
    rewrite <- Hmap at 2. rewrite map_map. reflexivity.
Qed.

(** C6. Under Go-Back-N, in any reachable world, [sendNack seq] (for [seq] in
    the window or not) sets the NACK timer, 500 ms; that timer sets the
    go-back timer, 500 ms; the go-back timer, computing the base of the
    window as it was at the call, sets one retransmission per member of that
    window, all of it since every member is at or above the base, in window
    order, which is ascending, the k-th delayed by [k * 500] ms; each of
    these appends a new frame with the member's number, the payload of the
    original, status retransmitting and [isRetransmission] true.  With no
    other timer pending, once the [2 + 2 * |window|] timers have fired the
    registry has gained exactly one retransmission frame per window member,
    in ascending order. *)
Theorem go_back_n_nack_resends_window (w : World) (seq : Z)
    (Hreach : reachable w) (Hgbn : protocol (st w) = go_back_n) :
  StronglySorted Z.lt (senderWindow (st w))
  /\ filter (fun x => js_geb x (Math_min (senderWindow (st w)))) (senderWindow (st w))
     = senderWindow (st w)
  /\ snd (sendNack (st w) seq (now w))
     = [mkTimer (now w + 500) (CbNackArrived (st w) (now w) seq)]
  /\ (forall cur t1,
        snd (run_callback (CbNackArrived (st w) (now w) seq) t1 cur)
        = [mkTimer (t1 + 500) (CbRetransmitFrom (st w))])
  /\ (forall cur t2,
        run_callback (CbRetransmitFrom (st w)) t2 cur
        = (cur, stagger (st w) t2 0 (senderWindow (st w))))
  /\ (forall t2,
        List.length (stagger (st w) t2 0 (senderWindow (st w)))
        = List.length (senderWindow (st w)))
  /\ (forall t2 k x,
        nth_error (senderWindow (st w)) k = Some x ->
        nth_error (stagger (st w) t2 0 (senderWindow (st w))) k
        = Some (mkTimer (t2 + Z.of_nat k * 500) (CbRetransmit (st w) x)))
  /\ (forall x, In x (senderWindow (st w)) ->
      forall cur t3, exists original,
        find (fun p => sequenceNumber p =? x) (packets (st w)) = Some original
        /\ run_callback (CbRetransmit (st w) x) t3 cur
           = (cur |> setPackets
                       (fun prev =>
                          prev ++ [mkPacket t3 x (data original) retransmitting t3 true]),
              [mkTimer (t3 + 1000) (CbRetxArrived (st w) t3)]))
  /\ (timers w = [] ->
        timers (fires (2 + 2 * List.length (senderWindow (st w)))
                      (click (ClickNack seq) w)) = []
        /\ map frameKey
             (packets (st (fires (2 + 2 * List.length (senderWindow (st w)))
                                 (click (ClickNack seq) w))))
           = map frameKey (packets (st w))
             ++ map (fun x => (x, true)) (senderWindow (st w))).
Proof.
  pose proof (reachable_WellFormed w Hreach) as Hwf.
  split; [apply (wf_sorted _ Hwf)|].
  split; [apply filter_from_base|].
  split; [reflexivity|].
  split.
  { intros cur t1. simpl. unfold nackArrived. now rewrite Hgbn. }
  split.
  { intros cur t2. simpl. unfold retransmitFromSequence.
    now rewrite filter_from_base. }
  split; [intros t2; apply stagger_length|].
  split.
  { intros t2 k x Hk. now rewrite (stagger_nth _ t2 0 _ k x Hk). }
  split.
  { intros x Hx cur t3. simpl. now apply retransmit_member. }
  intros Hquiet. now apply go_back_n_nack_run.
Qed.

(** The theorem at the Go-Back-N world with window [0; 1; 2], all three
    frames received, for a NACK of 1. *)
Lemma go_back_n_nack_resends_window_witness :
  timers (fires (2 + 2 * List.length (senderWindow (st gbn_three_received)))
                (click (ClickNack 1) gbn_three_received)) = []
  /\ map frameKey
       (packets (st (fires (2 + 2 * List.length (senderWindow (st gbn_three_received)))
                           (click (ClickNack 1) gbn_three_received))))
     = map frameKey (packets (st gbn_three_received))
       ++ map (fun x => (x, true)) (senderWindow (st gbn_three_received)).
Proof.
  destruct (go_back_n_nack_resends_window gbn_three_received 1)
    as [_ [_ [_ [_ [_ [_ [_ [_ Hrun]]]]]]]].
  - unfold gbn_three_received. apply reachable_run. apply reach_init.
  - vm_compute. reflexivity.
  - apply Hrun. vm_compute. reflexivity.
Defined.

(** The same scenario evaluated: eight timers after the NACK of 1 the
    registry holds the three first sends, then retransmissions of 0, 1, 2. *)
Example go_back_n_nack_of_1_resends_0_1_2 :
  senderWindow (st gbn_three_received) = [0; 1; 2]
  /\ timers (fires 8 (click (ClickNack 1) gbn_three_received)) = []
  /\ map frameKey (packets (st (fires 8 (click (ClickNack 1) gbn_three_received))))
     = [(0, false); (1, false); (2, false); (0, true); (1, true); (2, true)].
Proof. vm_compute. repeat split; reflexivity. Qed.

(** * Further properties of the handlers *)

(** ** What the timers leave alone *)

Lemma retransmitPacket_effect (snap : State) (seq t : Z) (cur : State) :
  let s' := fst (retransmitPacket snap seq t cur) in
  protocol s' = protocol cur /\ acks s' = acks cur
  /\ isSimulating s' = isSimulating cur /\ windowSize s' = windowSize cur
  /\ expectedSequenceNumber s' = expectedSequenceNumber cur
  /\ senderWindow s' = senderWindow cur /\ receiverBuffer s' = receiverBuffer cur
  /\ waitingForAck s' = waitingForAck cur /\ showDiagram s' = showDiagram cur
  /\ (map frameKey (packets s') = map frameKey (packets cur)
      \/ map frameKey (packets s') = map frameKey (packets cur) ++ [(seq, true)]).
Proof.
  unfold retransmitPacket. destruct (find _ (packets snap)); simpl.
  - repeat (split; [reflexivity|]). right. now rewrite map_app.
  - repeat (split; [reflexivity|]). now left.
Qed.

(** The fields a callback can touch. *)
Lemma run_callback_effect (c : Callback) (t : Z) (cur : State) :
  let s' := fst (run_callback c t cur) in
  protocol s' = protocol cur
  /\ windowSize s' = windowSize cur
  /\ nextSequenceNumber s' = nextSequenceNumber cur
  /\ expectedSequenceNumber s' = expectedSequenceNumber cur
  /\ receiverBuffer s' = receiverBuffer cur
  /\ showDiagram s' = showDiagram cur
  /\ map (fun a => (ack_id a, ack_sequenceNumber a, ack_type a)) (acks s')
     = map (fun a => (ack_id a, ack_sequenceNumber a, ack_type a)) (acks cur)
  /\ (exists f, senderWindow s' = filter f (senderWindow cur))
  /\ (map frameKey (packets s') = map frameKey (packets cur)
      \/ exists x, map frameKey (packets s') = map frameKey (packets cur) ++ [(x, true)]).
Proof.
  assert (Hacks : forall aid l,
    map (fun a => (ack_id a, ack_sequenceNumber a, ack_type a)) (markAckReceived aid l)
    = map (fun a => (ack_id a, ack_sequenceNumber a, ack_type a)) l).
  { intros aid l. unfold markAckReceived. rewrite map_map. apply map_ext.
    intros a. now destruct (ack_id a =? aid). }
  assert (Hsame : forall l : list Z, exists f, l = filter f l).
  { intros l. exists (fun _ => true). symmetry. apply filter_all.
    now apply Forall_forall. }
  destruct c as [pid|snap pid|snap seq|snap|snap aid seq ty|snap aid seq]; cbv zeta.
  - simpl. repeat (split; [reflexivity|]). split; [apply Hsame|].
    left. apply map_frameKey_markStatusById.
  - simpl. destruct (Protocol_eqb (protocol snap) stop_and_wait); simpl;
      (repeat (split; [reflexivity|])); (split; [apply Hsame|]);
      left; apply map_frameKey_markStatusById.
  - simpl run_callback.
    destruct (retransmitPacket_effect snap seq t cur)
      as [H1 [H2 [_ [H4 [H5 [H6 [H7 [_ [H9 H10]]]]]]]]].
    rewrite retransmitPacket_next, H1, H2, H4, H5, H6, H7, H9.
    repeat (split; [reflexivity|]). split; [apply Hsame|].
    destruct H10 as [H|H]; [now left | right; now exists seq].
  - simpl. repeat (split; [reflexivity|]). split; [apply Hsame | now left].
  - simpl. unfold ackArrived.
    destruct ty, (protocol snap); simpl; rewrite ?Hacks;
      (repeat (split; [reflexivity|]));
      (split; [first [apply Hsame | eexists; reflexivity]|]);
      left; rewrite ?map_frameKey_markStatus; reflexivity.
  - simpl. unfold nackArrived.
    destruct (protocol snap); simpl.
    + rewrite Hacks. repeat (split; [reflexivity|]). split; [apply Hsame|].
      left. apply map_frameKey_markStatus.
    + match goal with
      | |- context [retransmitPacket ?a ?b ?c ?d] =>
          destruct (retransmitPacket_effect a b c d)
            as [H1 [H2 [_ [H4 [H5 [H6 [H7 [_ [H9 H10]]]]]]]]];
          rewrite (retransmitPacket_next a b c d), H1, H2, H4, H5, H6, H7, H9
      end.
      simpl. repeat (split; [reflexivity|]). split; [apply Hsame|].
      simpl in H10. rewrite map_frameKey_markStatus in H10.
      destruct H10 as [H|H]; [now left | right; now exists seq].
    + rewrite Hacks. repeat (split; [reflexivity|]). split; [apply Hsame|].
      left. apply map_frameKey_markStatus.
    + match goal with
      | |- context [retransmitPacket ?a ?b ?c ?d] =>
          destruct (retransmitPacket_effect a b c d)
            as [H1 [H2 [_ [H4 [H5 [H6 [H7 [_ [H9 H10]]]]]]]]];
          rewrite (retransmitPacket_next a b c d), H1, H2, H4, H5, H6, H7, H9
      end.
      simpl. rewrite Hacks. repeat (split; [reflexivity|]). split; [apply Hsame|].
      simpl in H10. rewrite map_frameKey_markStatus in H10.
      destruct H10 as [H|H]; [now left | right; now exists seq].
Qed.

(** X1. No timer callback, whatever it has captured and whenever it fires,
    changes the protocol, the window size, [nextSequenceNumber],
    [expectedSequenceNumber], the reorder buffer or the diagram flag; it
    never adds to the acknowledgment log nor changes a record's number or
    kind; it can only remove members from the sender window; and it adds at
    most one frame to the registry, a retransmission, leaving the numbers
    and retransmission flags of the frames already there as they are. *)
Theorem timers_leave_counters_alone (c : Callback) (t : Z) (cur : State) :
  let s' := fst (run_callback c t cur) in
  protocol s' = protocol cur
  /\ windowSize s' = windowSize cur
  /\ nextSequenceNumber s' = nextSequenceNumber cur
  /\ expectedSequenceNumber s' = expectedSequenceNumber cur
  /\ receiverBuffer s' = receiverBuffer cur
  /\ showDiagram s' = showDiagram cur
  /\ map (fun a => (ack_id a, ack_sequenceNumber a, ack_type a)) (acks s')
     = map (fun a => (ack_id a, ack_sequenceNumber a, ack_type a)) (acks cur)
  /\ (exists f, senderWindow s' = filter f (senderWindow cur))
  /\ (map frameKey (packets s') = map frameKey (packets cur)
      \/ exists x, map frameKey (packets s') = map frameKey (packets cur) ++ [(x, true)]).
Proof. exact (run_callback_effect c t cur). Qed.

(** ** First sends are numbered 0, 1, 2, ... *)

Lemma sendAck_keys (s : State) (seq t : Z) :
  map frameKey (packets (fst (sendAck s seq t))) = map frameKey (packets s).
Proof.
  unfold sendAck. destruct (find _ (packets s)) as [packet|]; [|reflexivity].
  assert (H : map frameKey (packets (fst (fst (ackPolicy s packet seq))))
              = map frameKey (packets s)).
  { unfold ackPolicy. destruct (protocol s); simpl; try reflexivity.
    - now destruct (seq =? expectedSequenceNumber s).
    - now destruct (seq >=? expectedSequenceNumber s), (seq =? expectedSequenceNumber s).
    - destruct (seq =? expectedSequenceNumber s); simpl.
      + now destruct (drainBuffer (receiverBuffer s) (expectedSequenceNumber s + 1)).
      + apply map_frameKey_markStatus. }
  destruct (ackPolicy s packet seq) as [[s1 should] ty]. simpl in H.
  destruct should; simpl; [|exact H].
  now destruct (negb (Protocol_eqb (protocol s) stop_and_wait)).
Qed.

(** What a command does to the registry's numbers and flags and to the
    counter: a reset empties both, a send that passes the gate appends the
    counter's value as a first send, anything else keeps both. *)
Lemma handle_keys (c : Command) (s : State) (t : Z) :
  let s' := fst (handle c s t) in
  (packets s' = [] /\ nextSequenceNumber s' = 0)
  \/ (map frameKey (packets s') = map frameKey (packets s)
      /\ nextSequenceNumber s' = nextSequenceNumber s)
  \/ (map frameKey (packets s')
      = map frameKey (packets s) ++ [(nextSequenceNumber s, false)]
      /\ nextSequenceNumber s' = nextSequenceNumber s + 1).
Proof.
  destruct c; cbv zeta; simpl handle.
  - unfold sendPacket. destruct (canSendPacket s); simpl.
    + right. right. destruct (protocol s); simpl; rewrite map_app; split; reflexivity.
    + right. left. split; reflexivity.
  - right. left. split; [apply sendAck_keys | apply sendAck_next].
  - right. left. unfold sendNack. simpl.
    destruct (negb (Protocol_eqb (protocol s) stop_and_wait)); split; reflexivity.
  - right. left. unfold losePacket.
    destruct (find _ (packets s)); [destruct (protocol s)|]; simpl;
      (split; [apply map_frameKey_markStatusById | reflexivity]).
  - left. split; reflexivity.
  - left. split; reflexivity.
  - destruct ((1 <=? n) && (n <=? 8)); simpl.
    + left. split; reflexivity.
    + right. left. split; reflexivity.
  - right. left. split; reflexivity.
  - right. left. split; reflexivity.
Qed.

Lemma firstSends_keys (ps : list Packet) :
  map sequenceNumber (firstSends ps)
  = map fst (filter (fun k => negb (snd k)) (map frameKey ps)).
Proof.
  unfold firstSends. induction ps as [|p ps IH]; simpl; [reflexivity|].
  destruct (isRetransmission p); simpl; now rewrite IH.
Qed.

Lemma upto_succ (n : Z) : 0 <= n -> upto (n + 1) = upto n ++ [n].
Proof.
  intros Hn. unfold upto.
  replace (Z.to_nat (n + 1)) with (S (Z.to_nat n)) by lia.
  rewrite seq_S, map_app. simpl. now rewrite Z2Nat.id.
Qed.

Lemma numbered_step (ks ks' : list (Z * bool)) (n n' : Z) :
  0 <= n ->
  map fst (filter (fun k => negb (snd k)) ks) = upto n ->
  (ks' = [] /\ n' = 0)
  \/ (ks' = ks /\ n' = n)
  \/ (ks' = ks ++ [(n, false)] /\ n' = n + 1)
  \/ (exists x, ks' = ks ++ [(x, true)] /\ n' = n) ->
  0 <= n' /\ map fst (filter (fun k => negb (snd k)) ks') = upto n'.
Proof.
  intros Hn H [[-> ->]|[[-> ->]|[[-> ->]|[x [-> ->]]]]].
  - split; [lia | reflexivity].
  - now split.
  - split; [lia|]. rewrite filter_app, map_app, H. simpl. now rewrite upto_succ.
  - split; [lia|]. rewrite filter_app, map_app, H. simpl. now rewrite app_nil_r.
Qed.

Lemma reachable_numbered (w : World) :
  reachable w ->
  0 <= nextSequenceNumber (st w)
  /\ map fst (filter (fun k => negb (snd k)) (map frameKey (packets (st w))))
     = upto (nextSequenceNumber (st w)).
Proof.
  induction 1 as [t0|w e _ [IH0 IH]]; [split; [simpl; lia | reflexivity]|].
  apply (numbered_step _ _ _ _ IH0 IH).
  destruct e as [c| |dt]; simpl.
  - unfold click. pose proof (handle_keys c (st w) (now w)) as H.
    destruct (handle c (st w) (now w)) as [s' new]. simpl in *.
    destruct H as [[H1 H2]|[H|H]].
    + left. now rewrite H1.
    + right. now left.
    + right. right. now left.
  - unfold fire. destruct (pick (timers w)) as [[tm rest]|]; [|right; now left].
    pose proof (run_callback_effect (cb tm) (Z.max (now w) (due tm)) (st w)) as H.
    destruct (run_callback (cb tm) (Z.max (now w) (due tm)) (st w)) as [s' new].
    simpl in *. destruct H as [_ [_ [Hn [_ [_ [_ [_ [_ Hk]]]]]]]].
    destruct Hk as [Hk|[x Hk]].
    + right. left. now split.
    + right. right. right. exists x. now split.
  - unfold wait. destruct (_ && _); right; now left.
Qed.

(** X2. In every reachable world the frames that are not retransmissions
    carry, in registry order, exactly the numbers 0, 1, ...,
    [nextSequenceNumber - 1]: each number is first-sent once and only once,
    also after resets and with stale retransmissions landing in the fresh
    registry. *)
Theorem first_sends_numbered_in_order (w : World) (Hreach : reachable w) :
  map sequenceNumber (firstSends (packets (st w))) = upto (nextSequenceNumber (st w))
  /\ NoDup (map sequenceNumber (firstSends (packets (st w)))).
Proof.
  destruct (reachable_numbered w Hreach) as [_ H].
  rewrite firstSends_keys, H. split; [reflexivity|].
  unfold upto. generalize (seq_NoDup (Z.to_nat (nextSequenceNumber (st w))) 0).
  induction 1 as [|a l Hnotin _ IH]; simpl; constructor; [|exact IH].
  intros Hin. apply in_map_iff in Hin. destruct Hin as [b [Hb Hin]].
  apply Nat2Z.inj in Hb. now subst b.
Qed.

Lemma first_sends_numbered_in_order_witness :
  map sequenceNumber (firstSends (packets (st gbn_window_drained)))
  = upto (nextSequenceNumber (st gbn_window_drained)).
Proof.
  apply first_sends_numbered_in_order.
  unfold gbn_window_drained. apply reachable_run. apply reach_init.
Defined.

Lemma filter_partition_length {A} (f : A -> bool) (l : list A) :
  (List.length l
   = List.length (filter (fun x => negb (f x)) l) + List.length (filter f l))%nat.
Proof.
  induction l as [|x l IH]; simpl; [reflexivity|].
  destruct (f x); simpl; lia.
Qed.

(** X3. In every reachable world the cell Total Sent equals
    [nextSequenceNumber] plus the cell Retransmitted, and the cells
    Acknowledged and Lost together never exceed Total Sent. *)
Theorem total_sent_counts_retransmissions (w : World) (Hreach : reachable w) :
  Z.of_nat (totalSent (st w))
  = nextSequenceNumber (st w) + Z.of_nat (totalRetransmitted (st w))
  /\ (totalAcknowledged (st w) + totalLost (st w) <= totalSent (st w))%nat.
Proof.
  destruct (reachable_numbered w Hreach) as [Hn H]. split.
  - unfold totalSent, totalRetransmitted.
    rewrite (filter_partition_length (fun p => isRetransmission p) (packets (st w))).
    fold (firstSends (packets (st w))).
    rewrite <- (length_map sequenceNumber (firstSends _)), firstSends_keys, H.
    unfold upto. rewrite length_map, length_seq. lia.
  - unfold totalAcknowledged, totalLost, totalSent.
    clear H. induction (packets (st w)) as [|p ps IH]; [simpl; lia|].
    cbn [filter List.length]. destruct (status p); cbn; lia.
Qed.

Lemma total_sent_counts_retransmissions_witness :
  Z.of_nat (totalSent (st gbn_window_drained))
  = nextSequenceNumber (st gbn_window_drained)
    + Z.of_nat (totalRetransmitted (st gbn_window_drained)).
Proof.
  apply total_sent_counts_retransmissions.
  unfold gbn_window_drained. apply reachable_run. apply reach_init.
Defined.

(** ** Payloads and statuses of the registry *)

Lemma PacketStatus_eqb_eq (a b : PacketStatus) :
  PacketStatus_eqb a b = true -> a = b.
Proof. destruct a, b; simpl; intros H; try reflexivity; discriminate. Qed.

Lemma frameOK_withStatus (st' : PacketStatus) (p : Packet) :
  st' = received \/ st' = lost \/ st' = buffered \/ st' = acknowledged ->
  frameOK p -> frameOK (withStatus st' p).
Proof.
  intros Hst [Hd _]. split; [exact Hd|].
  unfold statusAllowed. simpl. now destruct Hst as [->|[->|[->| ->]]].
Qed.

Lemma Forall_frameOK_markStatus (seq : Z) (st' : PacketStatus) (ps : list Packet) :
  st' = received \/ st' = lost \/ st' = buffered \/ st' = acknowledged ->
  Forall frameOK ps -> Forall frameOK (markStatus seq st' ps).
Proof.
  intros Hst H. unfold markStatus. apply Forall_map.
  eapply Forall_impl; [|exact H]. intros p Hp. simpl.
  destruct (sequenceNumber p =? seq); [now apply frameOK_withStatus | exact Hp].
Qed.

Lemma Forall_frameOK_markStatusById (pid : Z) (st' : PacketStatus) (ps : list Packet) :
  st' = received \/ st' = lost \/ st' = buffered \/ st' = acknowledged ->
  Forall frameOK ps -> Forall frameOK (markStatusById pid st' ps).
Proof.
  intros Hst H. unfold markStatusById. apply Forall_map.
  eapply Forall_impl; [|exact H]. intros p Hp. simpl.
  destruct (id p =? pid); [now apply frameOK_withStatus | exact Hp].
Qed.

(** The pass of lines 200-206 keeps frames of the buffer only. *)
Lemma drainBuffer_kept {P : Packet -> Prop} (buffer : list Packet) (e : Z) :
  Forall P buffer -> Forall P (fst (drainBuffer buffer e)).
Proof.
  revert e. induction buffer as [|p rest IH]; intros e H; simpl; [constructor|].
  inversion H as [|? ? Hp Hrest]; subst.
  destruct (sequenceNumber p =? e); [now apply IH|].
  specialize (IH e Hrest). destruct (drainBuffer rest e) as [kept n].
  simpl in *. now constructor.
Qed.

Ltac status_ok :=
  first [ now left | right; now left | right; right; now left | right; right; now right ].

Lemma retransmitPacket_frames_ok (snap : State) (seq t : Z) (cur : State) :
  Forall frameOK (packets snap) ->
  Forall frameOK (packets cur) ->
  Forall frameOK (packets (fst (retransmitPacket snap seq t cur)))
  /\ receiverBuffer (fst (retransmitPacket snap seq t cur)) = receiverBuffer cur
  /\ Forall (fun tm => closureOK (cb tm)) (snd (retransmitPacket snap seq t cur)).
Proof.
  intros Hsnap Hcur. unfold retransmitPacket.
  destruct (find _ (packets snap)) as [original|] eqn:E; simpl.
  - apply find_some in E. destruct E as [Hin Heq]. apply Z.eqb_eq in Heq.
    rewrite Forall_forall in Hsnap. destruct (Hsnap original Hin) as [Hd _].
    split; [|split; [reflexivity | repeat constructor; exact (proj2 (Forall_forall _ _) Hsnap)]].
    apply Forall_app. split; [exact Hcur|]. constructor; [|constructor].
    split; [|reflexivity]. simpl. now rewrite Hd, Heq.
  - split; [exact Hcur|]. split; [reflexivity | constructor].
Qed.

Lemma sendAck_frames_ok (s : State) (seq t : Z) :
  Forall frameOK (packets s) ->
  Forall (fun p => frameOK p /\ status p = received) (receiverBuffer s) ->
  Forall frameOK (packets (fst (sendAck s seq t)))
  /\ Forall (fun p => frameOK p /\ status p = received)
            (receiverBuffer (fst (sendAck s seq t)))
  /\ Forall (fun tm => closureOK (cb tm)) (snd (sendAck s seq t)).
Proof.
  intros Hreg Hbuf. unfold sendAck.
  destruct (find _ (packets s)) as [packet|] eqn:E;
    [|split; [exact Hreg | split; [exact Hbuf | constructor]]].
  apply find_some in E. destruct E as [Hin Hpred].
  apply andb_prop in Hpred. destruct Hpred as [_ Hst].
  apply PacketStatus_eqb_eq in Hst.
  assert (Hpacket : frameOK packet) by (rewrite Forall_forall in Hreg; now apply Hreg).
  assert (H : Forall frameOK (packets (fst (fst (ackPolicy s packet seq))))
              /\ Forall (fun p => frameOK p /\ status p = received)
                        (receiverBuffer (fst (fst (ackPolicy s packet seq))))).
  { unfold ackPolicy. destruct (protocol s); simpl.
    - now split.
    - destruct (seq =? expectedSequenceNumber s); now split.
    - destruct (seq >=? expectedSequenceNumber s), (seq =? expectedSequenceNumber s);
        now split.
    - destruct (seq =? expectedSequenceNumber s); simpl.
      + pose proof (drainBuffer_kept (receiverBuffer s)
                      (expectedSequenceNumber s + 1) Hbuf) as Hkept.
        destruct (drainBuffer (receiverBuffer s) (expectedSequenceNumber s + 1)).
        now split.
      + split; [apply Forall_frameOK_markStatus; [status_ok | exact Hreg]|].
        apply Forall_app. split; [exact Hbuf|]. constructor; [now split | constructor]. }
  destruct (ackPolicy s packet seq) as [[s1 should] ty]. simpl in H.
  destruct H as [H1 H2].
  destruct should; simpl; [|split; [exact H1 | split; [exact H2 | constructor]]].
  destruct (negb (Protocol_eqb (protocol s) stop_and_wait)); simpl;
    (split; [exact H1 | split; [exact H2 | repeat constructor; exact Hreg]]).
Qed.

Lemma handle_frames_ok (c : Command) (s : State) (t : Z) :
  Forall frameOK (packets s) ->
  Forall (fun p => frameOK p /\ status p = received) (receiverBuffer s) ->
  Forall frameOK (packets (fst (handle c s t)))
  /\ Forall (fun p => frameOK p /\ status p = received)
            (receiverBuffer (fst (handle c s t)))
  /\ Forall (fun tm => closureOK (cb tm)) (snd (handle c s t)).
Proof.
  intros Hreg Hbuf. destruct c; simpl handle.
  - unfold sendPacket. destruct (canSendPacket s); simpl;
      [|split; [exact Hreg | split; [exact Hbuf | constructor]]].
    assert (Hnew : Forall frameOK
              (packets s ++ [mkPacket t (nextSequenceNumber s)
                               (frameData (nextSequenceNumber s)) sending t false])).
    { apply Forall_app. split; [exact Hreg|].
      constructor; [split; reflexivity | constructor]. }
    destruct (protocol s); simpl;
      (split; [exact Hnew | split; [exact Hbuf | repeat constructor]]).
  - now apply sendAck_frames_ok.
  - unfold sendNack. simpl.
    destruct (negb (Protocol_eqb (protocol s) stop_and_wait)); simpl;
      (split; [exact Hreg | split; [exact Hbuf | repeat constructor; exact Hreg]]).
  - unfold losePacket.
    assert (Hlost : Forall frameOK (markStatusById packetId lost (packets s)))
      by (apply Forall_frameOK_markStatusById; [status_ok | exact Hreg]).
    destruct (find _ (packets s)); [destruct (protocol s)|]; simpl;
      (split; [exact Hlost | split; [exact Hbuf | repeat constructor; exact Hreg]]).
  - repeat split; constructor.
  - repeat split; constructor.
  - destruct ((1 <=? n) && (n <=? 8)); simpl.
    + repeat split; constructor.
    + split; [exact Hreg | split; [exact Hbuf | constructor]].
  - split; [exact Hreg | split; [exact Hbuf | constructor]].
  - split; [exact Hreg | split; [exact Hbuf | constructor]].
Qed.

Lemma run_callback_frames_ok (c : Callback) (t : Z) (cur : State) :
  closureOK c ->
  Forall frameOK (packets cur) ->
  Forall frameOK (packets (fst (run_callback c t cur)))
  /\ Forall (fun tm => closureOK (cb tm)) (snd (run_callback c t cur)).
Proof.
  intros Hc Hreg.
  destruct c as [pid|snap pid|snap seq|snap|snap aid seq ty|snap aid seq];
    unfold closureOK in Hc; simpl in Hc; simpl run_callback.
  - simpl. split; [|constructor].
    apply Forall_frameOK_markStatusById; [status_ok | exact Hreg].
  - assert (H : Forall frameOK (markStatusById pid received (packets cur)))
      by (apply Forall_frameOK_markStatusById; [status_ok | exact Hreg]).
    destruct (Protocol_eqb (protocol snap) stop_and_wait); simpl;
      (split; [exact H | constructor]).
  - destruct (retransmitPacket_frames_ok snap seq t cur Hc Hreg) as [H1 [_ H3]].
    now split.
  - unfold retransmitFromSequence. simpl. split; [exact Hreg|].
    generalize 0 as i.
    induction (filter _ (senderWindow snap)) as [|x l IH]; intros i; simpl;
      constructor; [exact Hc | apply IH].
  - split; [|constructor]. unfold ackArrived.
    destruct ty, (protocol snap); simpl;
      try exact Hreg;
      (apply Forall_frameOK_markStatus; [status_ok | exact Hreg]).
  - unfold nackArrived.
    assert (Hlost : forall c1 : State, packets c1 = packets cur ->
              Forall frameOK (packets (c1 |> setPackets (markStatus seq lost)))).
    { intros c1 E. simpl. rewrite E.
      apply Forall_frameOK_markStatus; [status_ok | exact Hreg]. }
    destruct (protocol snap); simpl.
    + split; [now apply (Hlost (cur |> setAcks (markAckReceived aid))) | constructor].
    + destruct (retransmitPacket_frames_ok snap seq t
                  (cur |> setPackets (markStatus seq lost)) Hc) as [H1 [_ H3]];
        [now apply (Hlost cur) | now split].
    + split; [now apply (Hlost (cur |> setAcks (markAckReceived aid)))|].
      repeat constructor. exact Hc.
    + destruct (retransmitPacket_frames_ok snap seq t
                  (cur |> setAcks (markAckReceived aid)
                       |> setPackets (markStatus seq lost)) Hc) as [H1 [_ H3]];
        [now apply (Hlost (cur |> setAcks (markAckReceived aid))) | now split].
Qed.

Lemma reachable_FramesOK (w : World) : reachable w -> FramesOK w.
Proof.
  induction 1 as [t0|w e _ [Hreg Hbuf Htm]].
  - constructor; constructor.
  - destruct e as [c| |dt]; simpl.
    + unfold click.
      destruct (handle_frames_ok c (st w) (now w) Hreg Hbuf) as [H1 [H2 H3]].
      destruct (handle c (st w) (now w)) as [s' new]. simpl in *.
      constructor; simpl; try assumption. apply Forall_app. now split.
    + unfold fire. destruct (pick (timers w)) as [[tm rest]|] eqn:E;
        [|now constructor].
      destruct (pick_some _ _ _ E) as [l1 [l2 [Hts [Hrest _]]]].
      rewrite Hts in Htm. apply Forall_app in Htm. destruct Htm as [Hl1 Hl2].
      apply Forall_cons_iff in Hl2. destruct Hl2 as [Htmok Hl2].
      destruct (run_callback_frames_ok (cb tm) (Z.max (now w) (due tm)) (st w)
                  Htmok Hreg) as [H1 H2].
      pose proof (run_callback_effect (cb tm) (Z.max (now w) (due tm)) (st w)) as Heff.
      destruct (run_callback (cb tm) (Z.max (now w) (due tm)) (st w)) as [s' new].
      simpl in *. destruct Heff as [_ [_ [_ [_ [Hb _]]]]].
      constructor; simpl; [exact H1 | now rewrite Hb |].
      rewrite Hrest. repeat (apply Forall_app; split); assumption.
    + unfold wait. destruct (_ && _); now constructor.
Qed.

(** X4. In every reachable world each frame of the registry, a
    retransmission as much as a first send, has the payload [Frame n] for its
    own sequence number [n]: a retransmission copies the payload of a frame
    with the same number from the registry its closure captured, and that
    registry was itself a reachable one. *)
Theorem frames_keep_payload (w : World) (p : Packet)
    (Hreach : reachable w) (Hin : In p (packets (st w))) :
  data p = frameData (sequenceNumber p).
Proof.
  destruct (reachable_FramesOK w Hreach) as [Hreg _ _].
  rewrite Forall_forall in Hreg. now destruct (Hreg p Hin) as [H1 _].
Qed.

Lemma frames_keep_payload_witness :
  data (mkPacket 2100 0 (frameData 0) received 2100 true)
  = frameData (sequenceNumber (mkPacket 2100 0 (frameData 0) received 2100 true)).
Proof.
  apply (frames_keep_payload gbn_window_drained).
  - unfold gbn_window_drained. apply reachable_run. apply reach_init.
  - vm_compute. right. left. reflexivity.
Defined.

(** X5. In every reachable world no frame has status [sent] or [discarded],
    a frame in status [sending] is a first send, a frame in status
    [retransmitting] is a retransmission, and every frame held in the
    reorder buffer is the copy taken while its status was [received]. *)
Theorem statuses_written_by_the_handlers (w : World) (Hreach : reachable w) :
  (forall p, In p (packets (st w)) ->
     status p <> sent /\ status p <> discarded
     /\ (status p = sending -> isRetransmission p = false)
     /\ (status p = retransmitting -> isRetransmission p = true))
  /\ (forall p, In p (receiverBuffer (st w)) -> status p = received).
Proof.
  destruct (reachable_FramesOK w Hreach) as [Hreg Hbuf _]. split.
  - intros p Hin. rewrite Forall_forall in Hreg.
    destruct (Hreg p Hin) as [_ Hst]. unfold statusAllowed in Hst.
    destruct (status p), (isRetransmission p); simpl in Hst;
      repeat split; intros; congruence.
  - intros p Hin. rewrite Forall_forall in Hbuf. now destruct (Hbuf p Hin).
Qed.

Lemma statuses_written_by_the_handlers_witness :
  status (mkPacket 2200 2 (frameData 2) received 2200 false) = received.
Proof.
  destruct (statuses_written_by_the_handlers
              (run [Click (ClickAck 2); Fire] sr_three_received)) as [_ Hbuf].
  - apply reachable_run. unfold sr_three_received.
    apply reachable_run. apply reach_init.
  - apply Hbuf. vm_compute. left. reflexivity.
Defined.

(** ** State that belongs to one protocol *)

Ltac scoped_crush H :=
  let Hw := fresh "Hw" in let Hb := fresh "Hb" in
  let Ha := fresh "Ha" in let Hwt := fresh "Hwt" in
  destruct H as [Hw Hb Ha Hwt]; constructor; simpl in *; intros;
  try congruence; try tauto;
  try (match goal with
       | Hd : _ \/ _ |- _ => destruct Hd; congruence
       end);
  try (rewrite Hw by tauto; reflexivity);
  try (apply Hb; congruence);
  try (apply Ha; congruence);
  try (apply Hwt; assumption).

Lemma Scoped_ackPolicy (s : State) (packet : Packet) (seq : Z) :
  Scoped s -> Scoped (fst (fst (ackPolicy s packet seq))).
Proof.
  intros H. unfold ackPolicy. destruct (protocol s) eqn:Hp; simpl.
  - exact H.
  - destruct (seq =? expectedSequenceNumber s); simpl; [|exact H].
    scoped_crush H.
  - destruct (seq >=? expectedSequenceNumber s); [|exact H].
    destruct (seq =? expectedSequenceNumber s); scoped_crush H.
  - destruct (seq =? expectedSequenceNumber s); simpl.
    + destruct (drainBuffer (receiverBuffer s) (expectedSequenceNumber s + 1)).
      scoped_crush H.
    + scoped_crush H.
Qed.

Lemma ackPolicy_protocol (s : State) (packet : Packet) (seq : Z) :
  protocol (fst (fst (ackPolicy s packet seq))) = protocol s
  /\ acks (fst (fst (ackPolicy s packet seq))) = acks s.
Proof.
  unfold ackPolicy. destruct (protocol s) eqn:Hp; simpl.
  - now split.
  - destruct (seq =? expectedSequenceNumber s); now split.
  - destruct (seq >=? expectedSequenceNumber s), (seq =? expectedSequenceNumber s);
      now split.
  - destruct (seq =? expectedSequenceNumber s); simpl; [|now split].
    destruct (drainBuffer (receiverBuffer s) (expectedSequenceNumber s + 1)).
    now split.
Qed.

Lemma Scoped_sendAck (s : State) (seq t : Z) :
  Scoped s -> Scoped (fst (sendAck s seq t)).
Proof.
  intros H. unfold sendAck.
  destruct (find _ (packets s)) as [packet|]; [|exact H].
  pose proof (Scoped_ackPolicy s packet seq H) as Hpol.
  destruct (ackPolicy_protocol s packet seq) as [Hproto Hacks].
  destruct (ackPolicy s packet seq) as [[s1 should] ty]. simpl in *.
  destruct should; [|exact Hpol].
  destruct (protocol s) eqn:Hp; simpl; try exact Hpol;
    destruct Hpol as [Hw Hb Ha Hwt]; constructor; simpl; intros;
    try congruence; auto.
Qed.

Lemma Scoped_handle (c : Command) (s : State) (t : Z) :
  Scoped s -> Scoped (fst (handle c s t)).
Proof.
  intros H. destruct c; simpl handle.
  - unfold sendPacket. destruct (canSendPacket s); simpl; [|exact H].
    destruct (protocol s) eqn:Hp; simpl; scoped_crush H.
  - now apply Scoped_sendAck.
  - unfold sendNack. simpl. destruct (protocol s) eqn:Hp; simpl; scoped_crush H.
  - unfold losePacket.
    destruct (find _ (packets s)); [destruct (protocol s) eqn:Hp|]; simpl;
      scoped_crush H.
  - constructor; simpl; intros; try reflexivity; discriminate.
  - constructor; simpl; intros; try reflexivity; discriminate.
  - destruct ((1 <=? n) && (n <=? 8)); simpl; [|exact H].
    constructor; simpl; intros; try reflexivity; discriminate.
  - scoped_crush H.
  - scoped_crush H.
Qed.

Lemma run_callback_waiting (c : Callback) (t : Z) (cur : State) :
  waitingForAck (fst (run_callback c t cur)) = true -> waitingForAck cur = true.
Proof.
  destruct c as [pid|snap pid|snap seq|snap|snap aid seq ty|snap aid seq];
    simpl run_callback.
  - trivial.
  - destruct (Protocol_eqb (protocol snap) stop_and_wait); simpl; [discriminate | trivial].
  - destruct (retransmitPacket_effect snap seq t cur)
      as [_ [_ [_ [_ [_ [_ [_ [H _]]]]]]]]. now rewrite H.
  - trivial.
  - simpl. unfold ackArrived. destruct ty, (protocol snap); simpl;
      trivial; discriminate.
  - unfold nackArrived. destruct (protocol snap); simpl; trivial;
      match goal with
      | |- context [retransmitPacket ?a ?b ?c ?d] =>
          destruct (retransmitPacket_effect a b c d)
            as [_ [_ [_ [_ [_ [_ [_ [H _]]]]]]]]; rewrite H
      end; trivial.
Qed.

Lemma Scoped_run_callback (c : Callback) (t : Z) (cur : State) :
  Scoped cur -> Scoped (fst (run_callback c t cur)).
Proof.
  intros [Hw Hb Ha Hwt].
  destruct (run_callback_effect c t cur)
    as [Hp [_ [_ [_ [Hbuf [_ [Hacks [[f Hwin] _]]]]]]]].
  constructor; rewrite ?Hp, ?Hbuf, ?Hwin.
  - intros H. now rewrite (Hw H).
  - exact Hb.
  - intros H. rewrite (Ha H) in Hacks. simpl in Hacks.
    now apply map_eq_nil in Hacks.
  - intros H. apply Hwt. now apply (run_callback_waiting c t).
Qed.

Lemma reachable_Scoped (w : World) : reachable w -> Scoped (st w).
Proof.
  induction 1 as [t0|w e _ IH].
  - constructor; simpl; intros; try reflexivity; try discriminate.
  - destruct e as [c| |dt]; simpl.
    + unfold click. pose proof (Scoped_handle c (st w) (now w) IH) as H.
      now destruct (handle c (st w) (now w)).
    + unfold fire. destruct (pick (timers w)) as [[tm rest]|]; [|exact IH].
      pose proof (Scoped_run_callback (cb tm) (Z.max (now w) (due tm)) (st w) IH) as H.
      now destruct (run_callback (cb tm) (Z.max (now w) (due tm)) (st w)).
    + unfold wait. now destruct (_ && _).
Qed.

(** X6. In every reachable world the sender window is empty under Simple and
    Stop-and-Wait, the reorder buffer is empty under every protocol but
    Selective-Repeat, the acknowledgment log is empty under Stop-and-Wait,
    and [waitingForAck] is set under Stop-and-Wait only. *)
Theorem state_is_scoped_by_protocol (w : World) (Hreach : reachable w) :
  (protocol (st w) = simple \/ protocol (st w) = stop_and_wait ->
     senderWindow (st w) = [])
  /\ (protocol (st w) <> selective_repeat -> receiverBuffer (st w) = [])
  /\ (protocol (st w) = stop_and_wait -> acks (st w) = [])
  /\ (waitingForAck (st w) = true -> protocol (st w) = stop_and_wait).
Proof. destruct (reachable_Scoped w Hreach) as [H1 H2 H3 H4]. repeat split; assumption. Qed.

Lemma state_is_scoped_by_protocol_witness :
  acks (st sw_frame1_received) = [] /\ senderWindow (st sw_frame1_received) = [].
Proof.
  destruct (state_is_scoped_by_protocol sw_frame1_received) as [Hw [_ [Ha _]]].
  - unfold sw_frame1_received. apply reachable_run. apply reach_init.
  - split; [apply Ha | apply Hw; right]; vm_compute; reflexivity.
Defined.

(** ** The drain of the reorder buffer *)

Lemma drainBuffer_advance (buffer : list Packet) (e : Z) :
  e <= snd (drainBuffer buffer e)
  /\ Z.of_nat (List.length buffer)
     = Z.of_nat (List.length (fst (drainBuffer buffer e)))
       + (snd (drainBuffer buffer e) - e).
Proof.
  revert e. induction buffer as [|p rest IH]; intros e; [simpl; lia|].
  cbn [drainBuffer]. destruct (sequenceNumber p =? e).
  - specialize (IH (e + 1)). cbn [List.length]. rewrite Nat2Z.inj_succ. lia.
  - specialize (IH e). destruct (drainBuffer rest e) as [kept n].
    cbn [fst snd List.length] in *. rewrite !Nat2Z.inj_succ. lia.
Qed.

Lemma drainBuffer_nothing (buffer : list Packet) (e : Z) :
  Forall (fun p => sequenceNumber p <> e) buffer ->
  drainBuffer buffer e = (buffer, e).
Proof.
  induction 1 as [|p rest Hp _ IH]; simpl; [reflexivity|].
  apply Z.eqb_neq in Hp. now rewrite Hp, IH.
Qed.

Lemma drainBuffer_sorted (buffer : list Packet) (e : Z) :
  StronglySorted Z.lt (map sequenceNumber buffer) ->
  Forall (fun p => sequenceNumber p <> snd (drainBuffer buffer e))
         (fst (drainBuffer buffer e)).
Proof.
  revert e. induction buffer as [|p rest IH]; intros e Hs; simpl; [constructor|].
  simpl in Hs. inversion Hs as [|? ? Hrest Hall]; subst.
  destruct (sequenceNumber p =? e) eqn:E; [now apply IH|].
  apply Z.eqb_neq in E.
  destruct (Z.lt_ge_cases (sequenceNumber p) e) as [Hlt|Hge].
  - specialize (IH e Hrest). pose proof (drainBuffer_advance rest e) as [Hadv _].
    destruct (drainBuffer rest e) as [kept n]. simpl in *.
    constructor; [lia | exact IH].
  - rewrite drainBuffer_nothing.
    + simpl. constructor; [exact E|].
      rewrite Forall_map in Hall. eapply Forall_impl; [|exact Hall].
      simpl. intros; lia.
    + rewrite Forall_map in Hall. eapply Forall_impl; [|exact Hall].
      simpl. intros; lia.
Qed.

(** X7. The pass that drains the reorder buffer never lowers the expected
    number, keeps frames of the buffer only, and advances the expected
    number by exactly the count of frames it removes. *)
Theorem drain_advances_by_removed (buffer : list Packet) (e : Z) :
  e <= snd (drainBuffer buffer e)
  /\ Z.of_nat (List.length buffer)
     = Z.of_nat (List.length (fst (drainBuffer buffer e)))
       + (snd (drainBuffer buffer e) - e)
  /\ incl (fst (drainBuffer buffer e)) buffer.
Proof.
  destruct (drainBuffer_advance buffer e) as [H1 H2].
  split; [exact H1|]. split; [exact H2|].
  intros p Hp.
  assert (H : Forall (fun q => In q buffer) (fst (drainBuffer buffer e))).
  { apply drainBuffer_kept. now apply Forall_forall. }
  rewrite Forall_forall in H. now apply H.
Qed.

(** X8. When the reorder buffer holds its frames in ascending order of
    sequence number, the single pass drains it completely: no frame it keeps
    carries the expected number it ends on, and a second pass would change
    nothing. *)
Theorem drain_complete_on_ascending_buffer (buffer : list Packet) (e : Z)
    (Hsorted : StronglySorted Z.lt (map sequenceNumber buffer)) :
  Forall (fun p => sequenceNumber p <> snd (drainBuffer buffer e))
         (fst (drainBuffer buffer e))
  /\ drainBuffer (fst (drainBuffer buffer e)) (snd (drainBuffer buffer e))
     = drainBuffer buffer e.
Proof.
  pose proof (drainBuffer_sorted buffer e Hsorted) as H.
  split; [exact H|]. rewrite (drainBuffer_nothing _ _ H).
  now destruct (drainBuffer buffer e).
Qed.

Lemma drain_complete_on_ascending_buffer_witness :
  drainBuffer
    (fst (drainBuffer
            (receiverBuffer (st (run [Click (ClickAck 1); Wait 100; Click (ClickAck 2)]
                                     sr_three_received))) 1))
    (snd (drainBuffer
            (receiverBuffer (st (run [Click (ClickAck 1); Wait 100; Click (ClickAck 2)]
                                     sr_three_received))) 1))
  = drainBuffer
      (receiverBuffer (st (run [Click (ClickAck 1); Wait 100; Click (ClickAck 2)]
                               sr_three_received))) 1.
Proof.
  apply drain_complete_on_ascending_buffer.
  vm_compute. repeat constructor.
Defined.

(** ** The receiver's expected number *)

Lemma sendAck_expected (s : State) (seq t : Z) :
  expectedSequenceNumber s <= expectedSequenceNumber (fst (sendAck s seq t))
  /\ (seq <> expectedSequenceNumber s ->
        expectedSequenceNumber (fst (sendAck s seq t)) = expectedSequenceNumber s)
  /\ (protocol s = simple ->
        expectedSequenceNumber (fst (sendAck s seq t)) = expectedSequenceNumber s)
  /\ (expectedSequenceNumber (fst (sendAck s seq t)) <> expectedSequenceNumber s ->
        seq < expectedSequenceNumber (fst (sendAck s seq t)))
  /\ protocol (fst (sendAck s seq t)) = protocol s.
Proof.
  unfold sendAck. destruct (find _ (packets s)) as [packet|];
    [|simpl; repeat split; intros; try reflexivity; try lia; congruence].
  assert (H : let s1 := fst (fst (ackPolicy s packet seq)) in
    expectedSequenceNumber s <= expectedSequenceNumber s1
    /\ (seq <> expectedSequenceNumber s ->
          expectedSequenceNumber s1 = expectedSequenceNumber s)
    /\ (protocol s = simple -> expectedSequenceNumber s1 = expectedSequenceNumber s)
    /\ (expectedSequenceNumber s1 <> expectedSequenceNumber s ->
          seq < expectedSequenceNumber s1)
    /\ protocol s1 = protocol s).
  { cbv zeta. split; [|split; [|split; [|split]]];
      try apply (proj1 (ackPolicy_protocol s packet seq));
      unfold ackPolicy; destruct (protocol s) eqn:Hp; simpl; intros;
      try lia; try congruence; try reflexivity;
      try (destruct (seq =? expectedSequenceNumber s) eqn:E; simpl in *; lia);
      try (destruct (seq >=? expectedSequenceNumber s);
           destruct (seq =? expectedSequenceNumber s) eqn:E; simpl in *; lia);
      destruct (seq =? expectedSequenceNumber s) eqn:E; simpl in *; try lia;
      pose proof (drainBuffer_advance (receiverBuffer s)
                    (expectedSequenceNumber s + 1)) as [Hadv _];
      destruct (drainBuffer (receiverBuffer s) (expectedSequenceNumber s + 1));
      simpl in *; lia. }
  destruct (ackPolicy s packet seq) as [[s1 should] ty]. cbv zeta in H. simpl in H.
  destruct should; simpl; [|exact H].
  destruct (negb (Protocol_eqb (protocol s) stop_and_wait)); exact H.
Qed.

Lemma handle_expected (c : Command) (s : State) (t : Z) :
  isReset (Click c) = false ->
  expectedSequenceNumber s <= expectedSequenceNumber (fst (handle c s t)).
Proof.
  destruct c; simpl; intros Hr; try discriminate; try lia.
  - unfold sendPacket. destruct (canSendPacket s); simpl; [|lia].
    destruct (protocol s); simpl; lia.
  - apply sendAck_expected.
  - unfold sendNack. simpl.
    destruct (negb (Protocol_eqb (protocol s) stop_and_wait)); simpl; lia.
  - unfold losePacket.
    destruct (find _ (packets s)); [destruct (protocol s)|]; simpl; lia.
Qed.

Lemma exec_expected (e : Event) (w : World) :
  (isReset e = false ->
     expectedSequenceNumber (st w) <= expectedSequenceNumber (st (exec e w)))
  /\ (0 <= expectedSequenceNumber (st w) ->
      0 <= expectedSequenceNumber (st (exec e w))).
Proof.
  destruct e as [c| |dt]; simpl.
  - unfold click. pose proof (handle_expected c (st w) (now w)) as H.
    assert (H0 : isReset (Click c) = true ->
                 expectedSequenceNumber (fst (handle c (st w) (now w))) = 0
                 \/ fst (handle c (st w) (now w)) = st w).
    { destruct c; simpl; try discriminate; intros _; try (now left).
      destruct ((1 <=? n) && (n <=? 8)); simpl; [now left | now right]. }
    destruct (handle c (st w) (now w)) as [s' new]. simpl in *.
    split; [exact H|]. intros Hpos.
    destruct (isReset (Click c)) eqn:Hr.
    + destruct (H0 Hr) as [E|E]; [lia | now rewrite E].
    + specialize (H Hr). lia.
  - unfold fire. destruct (pick (timers w)) as [[tm rest]|]; [|split; intros; lia].
    pose proof (run_callback_effect (cb tm) (Z.max (now w) (due tm)) (st w)) as H.
    destruct (run_callback (cb tm) (Z.max (now w) (due tm)) (st w)).
    simpl in *. destruct H as [_ [_ [_ [H _]]]]. rewrite H. split; intros; lia.
  - unfold wait. destruct (_ && _); simpl; split; intros; lia.
Qed.

(** X9. [expectedSequenceNumber] is never lowered by an event other than a
    reset or a reconfiguration, and it is never negative in a reachable
    world. *)
Theorem expected_never_decreases :
  (forall e w, isReset e = false ->
     expectedSequenceNumber (st w) <= expectedSequenceNumber (st (exec e w)))
  /\ (forall w, reachable w -> 0 <= expectedSequenceNumber (st w)).
Proof.
  split.
  - intros e w. apply exec_expected.
  - induction 1 as [t0|w e _ IH]; [simpl; lia|]. now apply exec_expected.
Qed.

Lemma expected_never_decreases_witness :
  expectedSequenceNumber (st sr_three_received)
  <= expectedSequenceNumber (st (exec (Click (ClickAck 0)) sr_three_received)).
Proof.
  destruct expected_never_decreases as [H _]. apply H. reflexivity.
Defined.

(** An in-order acknowledgment of a received frame advances the expected
    number under every protocol but Simple. *)
Lemma sendAck_in_order_advances (s : State) (seq t : Z) :
  hasReceived seq (packets s) = true ->
  protocol s <> simple ->
  seq = expectedSequenceNumber s ->
  seq < expectedSequenceNumber (fst (sendAck s seq t)).
Proof.
  intros Hrec Hp E. destruct (find_received_present _ _ Hrec) as [packet Hfind].
  unfold sendAck, ackPolicy. rewrite Hfind.
  replace (seq >=? expectedSequenceNumber s) with true by lia.
  replace (seq =? expectedSequenceNumber s) with true by lia.
  destruct (protocol s); simpl; try lia; [now elim Hp|].
  pose proof (drainBuffer_advance (receiverBuffer s)
                (expectedSequenceNumber s + 1)) as [Hadv _].
  destruct (drainBuffer (receiverBuffer s) (expectedSequenceNumber s + 1)).
  simpl in *. lia.
Qed.

(** X10. Acknowledging the same sequence number twice in a row, the second
    call coming before any timer has fired, moves [expectedSequenceNumber]
    no further than the first call did, under every protocol. *)
Theorem acknowledge_twice_advances_once (s : State) (seq t t' : Z) :
  expectedSequenceNumber (fst (sendAck (fst (sendAck s seq t)) seq t'))
  = expectedSequenceNumber (fst (sendAck s seq t)).
Proof.
  destruct (sendAck_expected s seq t) as [_ [Hne [_ [_ Hproto]]]].
  destruct (sendAck_expected (fst (sendAck s seq t)) seq t')
    as [_ [Hne' [Hsimple' _]]].
  destruct (hasReceived seq (packets s)) eqn:Hrec.
  - destruct (protocol s) eqn:Hp;
      try (apply Hsimple'; now rewrite Hproto);
      (destruct (Z.eq_dec seq (expectedSequenceNumber s)) as [E|E];
       [ apply Hne';
         assert (Hlt : seq < expectedSequenceNumber (fst (sendAck s seq t)))
           by (apply sendAck_in_order_advances; [exact Hrec | congruence | exact E]);
         lia
       | apply Hne'; rewrite (Hne E); exact E ]).
  - assert (Hnoop : forall u, sendAck s seq u = (s, [])).
    { intros u. unfold sendAck. now rewrite (find_received_absent _ _ Hrec). }
    rewrite (Hnoop t). simpl. now rewrite (Hnoop t').
Qed.

(** ** Acknowledging what has been dealt with *)

Lemma hasReceived_markStatus (seq : Z) (st' : PacketStatus) (ps : list Packet) :
  st' <> received -> hasReceived seq (markStatus seq st' ps) = false.
Proof.
  intros Hst. unfold hasReceived, markStatus.
  induction ps as [|p ps IH]; simpl; [reflexivity|]. rewrite IH.
  destruct (sequenceNumber p =? seq) eqn:E; simpl.
  - rewrite E. destruct st'; simpl; try reflexivity. now elim Hst.
  - now rewrite E.
Qed.

Lemma hasReceived_app (seq : Z) (ps qs : list Packet) :
  hasReceived seq (ps ++ qs) = hasReceived seq ps || hasReceived seq qs.
Proof. unfold hasReceived. apply existsb_app. Qed.

Lemma sendAck_noop (s : State) (seq t : Z) :
  hasReceived seq (packets s) = false -> sendAck s seq t = (s, []).
Proof. intros H. unfold sendAck. now rewrite (find_received_absent _ _ H). Qed.

(** X11. Once the timer of a positive acknowledgment of [seq] has fired, or
    the timer of a NACK of [seq], no frame numbered [seq] is in status
    received any more (a retransmission just appended is still
    retransmitting), so [sendAck seq] changes nothing until another such
    frame arrives; and under Selective-Repeat an out-of-order [sendAck seq]
    leaves a state on which a second [sendAck seq] changes nothing, so a
    click buffers a frame at most once. *)
Theorem acknowledged_frames_are_not_acknowledged_again :
  (forall snap aid seq cur t,
     sendAck (ackArrived snap aid seq ACK cur) seq t
     = (ackArrived snap aid seq ACK cur, []))
  /\ (forall snap aid seq t0 cur t,
        sendAck (fst (nackArrived snap aid seq t0 cur)) seq t
        = (fst (nackArrived snap aid seq t0 cur), []))
  /\ (forall s seq t t',
        protocol s = selective_repeat ->
        seq <> expectedSequenceNumber s ->
        sendAck (fst (sendAck s seq t)) seq t' = (fst (sendAck s seq t), [])).
Proof.
  split; [|split].
  - intros snap aid seq cur t. apply sendAck_noop. unfold ackArrived.
    destruct (protocol snap); simpl; apply hasReceived_markStatus; discriminate.
  - intros snap aid seq t0 cur t. apply sendAck_noop. unfold nackArrived.
    assert (Hretx : forall c2 : State,
              hasReceived seq (packets c2) = false ->
              hasReceived seq (packets (fst (retransmitPacket snap seq t0 c2))) = false).
    { intros c2 H. unfold retransmitPacket.
      destruct (find _ (packets snap)); simpl; [|exact H].
      rewrite hasReceived_app, H. simpl. now rewrite andb_false_r. }
    destruct (protocol snap); simpl; try apply Hretx; simpl;
      apply hasReceived_markStatus; discriminate.
  - intros s seq t t' Hsr Hne. apply sendAck_noop.
    destruct (hasReceived seq (packets s)) eqn:Hrec.
    + destruct (find_received_present _ _ Hrec) as [packet Hfind].
      unfold sendAck, ackPolicy. rewrite Hfind, Hsr.
      apply Z.eqb_neq in Hne. rewrite Hne. simpl.
      apply hasReceived_markStatus. discriminate.
    + now rewrite (sendAck_noop s seq t Hrec).
Qed.

Lemma acknowledged_frames_are_not_acknowledged_again_witness :
  sendAck (fst (sendAck (st sr_three_received) 2 3300)) 2 3400
  = (fst (sendAck (st sr_three_received) 2 3300), []).
Proof.
  destruct acknowledged_frames_are_not_acknowledged_again as [_ [_ H]].
  apply H; vm_compute; [reflexivity | discriminate].
Defined.

(** ** Sends are serialized *)

Lemma stagger_no_arrival (snap : State) (t i : Z) (l : list Z) :
  filter isArrival (stagger snap t i l) = [].
Proof. revert i. induction l as [|x l IH]; intros i; simpl; [reflexivity | apply IH]. Qed.

(** No callback sets an arrival timer, and only the arrival callback writes
    [isSimulating]. *)
Lemma run_callback_busy (c : Callback) (t : Z) (cur : State) :
  filter isArrival (snd (run_callback c t cur)) = []
  /\ (isArrival (mkTimer t c) = false ->
      isSimulating (fst (run_callback c t cur)) = isSimulating cur).
Proof.
  assert (Hretx : forall snap seq c2,
            filter isArrival (snd (retransmitPacket snap seq t c2)) = []
            /\ isSimulating (fst (retransmitPacket snap seq t c2)) = isSimulating c2).
  { intros snap seq c2. unfold retransmitPacket.
    destruct (find _ (packets snap)); split; reflexivity. }
  destruct c as [pid|snap pid|snap seq|snap|snap aid seq ty|snap aid seq];
    simpl run_callback.
  - split; [reflexivity | discriminate].
  - destruct (Protocol_eqb (protocol snap) stop_and_wait); split; reflexivity.
  - destruct (Hretx snap seq cur) as [H1 H2]. now split.
  - unfold retransmitFromSequence. simpl. split; [apply stagger_no_arrival | reflexivity].
  - unfold ackArrived. destruct ty, (protocol snap); split; reflexivity.
  - unfold nackArrived. destruct (protocol snap); simpl;
      try (split; reflexivity);
      match goal with
      | |- context [retransmitPacket ?a ?b _ ?d] =>
          destruct (Hretx a b d) as [H1 H2]; rewrite H1, H2
      end; split; reflexivity.
Qed.

(** A command other than a send or a reset sets no arrival timer and leaves
    [isSimulating] alone. *)
Lemma handle_busy (c : Command) (s : State) (t : Z) :
  isReset (Click c) = false ->
  c <> ClickSend ->
  filter isArrival (snd (handle c s t)) = []
  /\ isSimulating (fst (handle c s t)) = isSimulating s.
Proof.
  destruct c; simpl; intros Hr Hc; try discriminate; try (now elim Hc);
    try (split; reflexivity).
  - unfold sendAck. destruct (find _ (packets s)) as [packet|]; [|split; reflexivity].
    assert (H : isSimulating (fst (fst (ackPolicy s packet seq))) = isSimulating s).
    { unfold ackPolicy. destruct (protocol s); simpl; try reflexivity.
      - now destruct (seq =? expectedSequenceNumber s).
      - now destruct (seq >=? expectedSequenceNumber s), (seq =? expectedSequenceNumber s).
      - destruct (seq =? expectedSequenceNumber s); simpl; [|reflexivity].
        now destruct (drainBuffer (receiverBuffer s) (expectedSequenceNumber s + 1)). }
    destruct (ackPolicy s packet seq) as [[s1 should] ty]. simpl in H.
    destruct should; simpl; [|now split].
    destruct (negb (Protocol_eqb (protocol s) stop_and_wait)); now split.
  - unfold sendNack. simpl.
    destruct (negb (Protocol_eqb (protocol s) stop_and_wait)); split; reflexivity.
  - unfold losePacket.
    destruct (find _ (packets s)); [destruct (protocol s)|]; split; reflexivity.
Qed.

Lemma Command_is_send (c : Command) : c = ClickSend \/ c <> ClickSend.
Proof. destruct c; try (right; discriminate). now left. Qed.

Lemma canSendPacket_busy (s : State) :
  isSimulating s = true -> canSendPacket s = false.
Proof. intros H. unfold canSendPacket. now rewrite H. Qed.

(** While at most one arrival is pending and [isSimulating] is set whenever
    one is, an event that is not a reset keeps it so. *)
Lemma one_arrival_step (e : Event) (w : World) :
  isReset e = false ->
  (List.length (pendingArrivals w) <= 1)%nat ->
  (pendingArrivals w <> [] -> isSimulating (st w) = true) ->
  (List.length (pendingArrivals (exec e w)) <= 1)%nat
  /\ (pendingArrivals (exec e w) <> [] -> isSimulating (st (exec e w)) = true).
Proof.
  intros Hr Hone Hbusy. unfold pendingArrivals in *.
  destruct e as [c| |dt]; simpl exec.
  - unfold click. destruct (Command_is_send c) as [->|Hc].
    + simpl handle. unfold sendPacket.
      destruct (canSendPacket (st w)) eqn:Hcan; simpl.
      * assert (Hnone : filter isArrival (timers w) = []).
        { destruct (filter isArrival (timers w)) eqn:E; [reflexivity|].
          rewrite canSendPacket_busy in Hcan; [discriminate|].
          apply Hbusy. discriminate. }
        rewrite filter_app, Hnone. simpl.
        split; [lia|]. intros _. now destruct (protocol (st w)).
      * rewrite app_nil_r. now split.
    + destruct (handle_busy c (st w) (now w) Hr Hc) as [H1 H2].
      destruct (handle c (st w) (now w)) as [s' new]. simpl in *.
      rewrite filter_app, H1, app_nil_r, H2. now split.
  - unfold fire. destruct (pick (timers w)) as [[tm rest]|] eqn:E; [|now split].
    destruct (pick_some _ _ _ E) as [l1 [l2 [Hts [Hrest _]]]].
    destruct (run_callback_busy (cb tm) (Z.max (now w) (due tm)) (st w)) as [H1 H2].
    destruct (run_callback (cb tm) (Z.max (now w) (due tm)) (st w)) as [s' new].
    simpl in *. rewrite filter_app, H1, app_nil_r, Hrest, filter_app.
    rewrite Hts, filter_app in Hone, Hbusy. simpl in Hone, Hbusy.
    rewrite length_app in *.
    destruct (isArrival tm) eqn:Harr.
    + simpl in Hone.
      assert (Hnil : filter isArrival l1 = [] /\ filter isArrival l2 = []).
      { destruct (filter isArrival l1), (filter isArrival l2); simpl in Hone;
          try lia; now split. }
      destruct Hnil as [-> ->]. simpl. split; [lia|]. intros H. now elim H.
    + assert (Hsame : isArrival (mkTimer (Z.max (now w) (due tm)) (cb tm)) = false)
        by exact Harr.
      rewrite (H2 Hsame). now split.
  - unfold wait. destruct (_ && _); now split.
Qed.

Lemma one_arrival_run (es : list Event) (w : World) :
  forallb (fun e => negb (isReset e)) es = true ->
  (List.length (pendingArrivals w) <= 1)%nat ->
  (pendingArrivals w <> [] -> isSimulating (st w) = true) ->
  pendingArrivals (run es w) <> [] -> isSimulating (st (run es w)) = true.
Proof.
  revert w. induction es as [|e es IH]; intros w Hes Hone Hbusy; simpl; [exact Hbusy|].
  simpl in Hes. apply andb_prop in Hes. destruct Hes as [He Hes].
  apply negb_true_iff in He.
  destruct (one_arrival_step e w He Hone Hbusy) as [H1 H2].
  now apply IH.
Qed.

(** X12. Sends are serialized.  Take a world in which no arrival timer is
    pending and the gate is open, and send.  Whatever follows (clicks on
    ACK, NACK, Lose, Send, Finish or Close, waits, other timers firing) short
    of a reset or a reconfiguration, as long as the arrival timer of that
    send is still pending the gate is closed under every protocol and a
    click on Send changes nothing and sets no timer.  The only callback that
    clears [isSimulating] is the arrival of a first send, and no callback
    sets an arrival timer. *)
Theorem accepted_send_closes_the_gate (w : World) (es : list Event)
    (Hnone : pendingArrivals w = [])
    (Hcan : canSendPacket (st w) = true)
    (Hes : forallb (fun e => negb (isReset e)) es = true)
    (Hpending : pendingArrivals (run es (click ClickSend w)) <> []) :
  canSendPacket (st (run es (click ClickSend w))) = false
  /\ click ClickSend (run es (click ClickSend w)) = run es (click ClickSend w)
  /\ (forall c t cur,
        filter isArrival (snd (run_callback c t cur)) = []
        /\ (isArrival (mkTimer t c) = false ->
            isSimulating (fst (run_callback c t cur)) = isSimulating cur)).
Proof.
  assert (Hbusy : isSimulating (st (run es (click ClickSend w))) = true).
  { apply one_arrival_run; try assumption.
    - unfold pendingArrivals, click. simpl handle. unfold sendPacket.
      rewrite Hcan. simpl. rewrite filter_app. fold (pendingArrivals w).
      rewrite Hnone. simpl. lia.
    - intros _. unfold click. simpl handle. unfold sendPacket. rewrite Hcan.
      simpl. now destruct (protocol (st w)). }
  pose proof (canSendPacket_busy _ Hbusy) as Hclosed.
  split; [exact Hclosed|]. split; [|exact run_callback_busy].
  unfold click at 1. simpl handle. rewrite (sendPacket_refused _ _ Hclosed).
  rewrite app_nil_r. now destruct (run es (click ClickSend w)).
Qed.

Lemma accepted_send_closes_the_gate_witness :
  canSendPacket
    (st (run [Click (ClickAck 0); Wait 500; Fire; Click ClickSend]
             (click ClickSend gbn_one_received))) = false.
Proof.
  destruct (accepted_send_closes_the_gate gbn_one_received
              [Click (ClickAck 0); Wait 500; Fire; Click ClickSend]) as [H _].
  - vm_compute. reflexivity.
  - vm_compute. reflexivity.
  - vm_compute. reflexivity.
  - vm_compute. discriminate.
  - exact H.
Defined.

(** ** The sender window is a sliding window *)

Lemma sendAck_window (s : State) (seq t : Z) :
  windowSize (fst (sendAck s seq t)) = windowSize s
  /\ exists f, senderWindow (fst (sendAck s seq t)) = filter f (senderWindow s).
Proof.
  assert (Hsame : exists f, senderWindow s = filter f (senderWindow s)).
  { exists (fun _ => true). symmetry. apply filter_all. now apply Forall_forall. }
  unfold sendAck. destruct (find _ (packets s)) as [packet|]; [|now split].
  assert (H : windowSize (fst (fst (ackPolicy s packet seq))) = windowSize s
              /\ exists f, senderWindow (fst (fst (ackPolicy s packet seq)))
                           = filter f (senderWindow s)).
  { unfold ackPolicy. destruct (protocol s); simpl.
    - now split.
    - destruct (seq =? expectedSequenceNumber s); now split.
    - destruct (seq >=? expectedSequenceNumber s), (seq =? expectedSequenceNumber s);
        simpl; (split; [reflexivity|]); first [exact Hsame | eexists; reflexivity].
    - destruct (seq =? expectedSequenceNumber s); simpl; [|now split].
      destruct (drainBuffer (receiverBuffer s) (expectedSequenceNumber s + 1)).
      now split. }
  destruct (ackPolicy s packet seq) as [[s1 should] ty]. simpl in H.
  destruct should; simpl; [|exact H].
  now destruct (negb (Protocol_eqb (protocol s) stop_and_wait)).
Qed.

Lemma span_sendPacket (s : State) (t : Z) :
  WellFormed s -> Scoped s ->
  Forall (fun x => nextSequenceNumber s - windowSize s <= x) (senderWindow s) ->
  Forall (fun x => nextSequenceNumber (fst (sendPacket s t))
                   - windowSize (fst (sendPacket s t)) <= x)
         (senderWindow (fst (sendPacket s t))).
Proof.
  intros Hwf Hsc Hspan. unfold sendPacket.
  destruct (canSendPacket s) eqn:Hcan; simpl; [|exact Hspan].
  pose proof (wf_windowSize _ Hwf) as Hws.
  assert (Hweak : Forall (fun x => nextSequenceNumber s + 1 - windowSize s <= x)
                         (senderWindow s) ->
                  Forall (fun x => nextSequenceNumber s + 1 - windowSize s <= x)
                         (senderWindow s ++ [nextSequenceNumber s])).
  { intros H. apply Forall_app. split; [exact H|]. repeat constructor. lia. }
  assert (Hbusy : isSimulating s = false).
  { unfold canSendPacket in Hcan. now destruct (isSimulating s). }
  assert (Hwindowed : protocol s = go_back_n \/ protocol s = selective_repeat ->
            Forall (fun x => nextSequenceNumber s + 1 - windowSize s <= x)
                   (senderWindow s)).
  { intros Hp. apply (canSendPacket_windowed s Hp Hbusy) in Hcan.
    destruct Hcan as [_ [Hnil|[base [_ [_ [Hall Hrange]]]]]].
    - rewrite Hnil. constructor.
    - eapply Forall_impl; [|exact Hall]. simpl. intros; lia. }
  destruct (protocol s) eqn:Hp; simpl.
  - rewrite (sc_window _ Hsc); [constructor | now left].
  - rewrite (sc_window _ Hsc); [constructor | now right].
  - apply Hweak, Hwindowed. now left.
  - apply Hweak, Hwindowed. now right.
Qed.

Lemma span_filter (s s' : State) (f : Z -> bool) :
  windowSize s' = windowSize s ->
  nextSequenceNumber s' = nextSequenceNumber s ->
  senderWindow s' = filter f (senderWindow s) ->
  Forall (fun x => nextSequenceNumber s - windowSize s <= x) (senderWindow s) ->
  Forall (fun x => nextSequenceNumber s' - windowSize s' <= x) (senderWindow s').
Proof.
  intros -> -> -> H. now apply Forall_filter_keep.
Qed.

Lemma span_handle (c : Command) (s : State) (t : Z) :
  WellFormed s -> Scoped s ->
  Forall (fun x => nextSequenceNumber s - windowSize s <= x) (senderWindow s) ->
  Forall (fun x => nextSequenceNumber (fst (handle c s t))
                   - windowSize (fst (handle c s t)) <= x)
         (senderWindow (fst (handle c s t))).
Proof.
  intros Hwf Hsc Hspan.
  assert (Hsame : senderWindow s = filter (fun _ => true) (senderWindow s)).
  { symmetry. apply filter_all. now apply Forall_forall. }
  destruct c; simpl handle.
  - now apply span_sendPacket.
  - destruct (sendAck_window s seq t) as [Hws [f Hf]].
    apply (span_filter s _ f Hws (sendAck_next s seq t) Hf Hspan).
  - unfold sendNack. simpl.
    destruct (negb (Protocol_eqb (protocol s) stop_and_wait)); exact Hspan.
  - unfold losePacket.
    destruct (find _ (packets s)); [destruct (protocol s)|]; exact Hspan.
  - constructor.
  - constructor.
  - destruct ((1 <=? n) && (n <=? 8)); simpl; [constructor | exact Hspan].
  - exact Hspan.
  - exact Hspan.
Qed.

Lemma reachable_span (w : World) :
  reachable w ->
  Forall (fun x => nextSequenceNumber (st w) - windowSize (st w) <= x)
         (senderWindow (st w)).
Proof.
  induction 1 as [t0|w e Hw IH]; [constructor|].
  pose proof (reachable_WellFormed w Hw) as Hwf.
  pose proof (reachable_Scoped w Hw) as Hsc.
  destruct e as [c| |dt]; simpl.
  - unfold click. pose proof (span_handle c (st w) (now w) Hwf Hsc IH) as H.
    now destruct (handle c (st w) (now w)).
  - unfold fire. destruct (pick (timers w)) as [[tm rest]|]; [|exact IH].
    pose proof (run_callback_effect (cb tm) (Z.max (now w) (due tm)) (st w)) as H.
    destruct (run_callback (cb tm) (Z.max (now w) (due tm)) (st w)) as [s' new].
    simpl in *. destruct H as [_ [Hws [Hn [_ [_ [_ [_ [[f Hf] _]]]]]]]].
    apply (span_filter (st w) s' f Hws Hn Hf IH).
  - unfold wait. now destruct (_ && _).
Qed.

Lemma StronglySorted_lt_NoDup (l : list Z) : StronglySorted Z.lt l -> NoDup l.
Proof.
  induction 1 as [|x l _ IH Hall]; constructor; [|exact IH].
  intros Hin. rewrite Forall_forall in Hall. specialize (Hall x Hin). lia.
Qed.

(** X13. In every reachable world the sender window is strictly ascending,
    so without repetition; its members are all among the last [windowSize]
    sequence numbers handed out, from [nextSequenceNumber - windowSize] to
    [nextSequenceNumber - 1]; and each of them has a frame in the
    registry. *)
Theorem sender_window_slides (w : World) (Hreach : reachable w) :
  StronglySorted Z.lt (senderWindow (st w))
  /\ NoDup (senderWindow (st w))
  /\ Forall (fun x => nextSequenceNumber (st w) - windowSize (st w) <= x
                      /\ x < nextSequenceNumber (st w))
            (senderWindow (st w))
  /\ incl (senderWindow (st w)) (map sequenceNumber (packets (st w))).
Proof.
  pose proof (reachable_WellFormed w Hreach) as [_ _ Hsorted Hbelow Hframes _].
  pose proof (reachable_span w Hreach) as Hspan.
  split; [exact Hsorted|]. split; [now apply StronglySorted_lt_NoDup|].
  split; [|exact Hframes].
  rewrite Forall_forall in *. intros x Hx.
  specialize (Hbelow x Hx). specialize (Hspan x Hx). lia.
Qed.

Lemma sender_window_slides_witness :
  NoDup (senderWindow (st gbn_three_received)).
Proof.
  destruct (sender_window_slides gbn_three_received) as [_ [H _]].
  - unfold gbn_three_received. apply reachable_run. apply reach_init.
  - exact H.
Defined.

(** ** Single resends: NACK and loss outside Go-Back-N *)

Lemma hasReceived_arrival (seq t : Z) (d : string) (st0 : PacketStatus) (ps : list Packet) :
  hasReceived seq (markStatusById t received (ps ++ [mkPacket t seq d st0 t true])) = true.
Proof.
  unfold hasReceived, markStatusById. rewrite map_app, existsb_app.
  simpl. rewrite ?Z.eqb_refl. simpl. rewrite ?Z.eqb_refl. simpl. apply orb_true_r.
Qed.

(** A NACK of [seq] under Selective-Repeat or Stop-and-Wait, no other timer
    pending, a frame numbered [seq] in the registry: the two timers that
    follow. *)
Lemma single_nack_run (w : World) (seq : Z) (original : Packet) :
  protocol (st w) = selective_repeat \/ protocol (st w) = stop_and_wait ->
  timers w = [] ->
  find (fun p => sequenceNumber p =? seq) (packets (st w)) = Some original ->
  timers (fires 2 (click (ClickNack seq) w)) = []
  /\ map frameKey (packets (st (fires 2 (click (ClickNack seq) w))))
     = map frameKey (packets (st w)) ++ [(seq, true)]
  /\ hasReceived seq (packets (st (fires 2 (click (ClickNack seq) w)))) = true
  /\ (protocol (st w) = stop_and_wait ->
      waitingForAck (st (fires 2 (click (ClickNack seq) w))) = false).
Proof.
  intros Hp Hquiet Hfind. destruct w as [s t ts].
  cbn [st now timers] in *. subst ts.
  assert (Hretx : forall cur t1,
            retransmitPacket s seq t1 cur
            = (cur |> setPackets
                        (fun prev => prev ++ [mkPacket t1 seq (data original)
                                                       retransmitting t1 true]),
               [mkTimer (t1 + 1000) (CbRetxArrived s t1)])).
  { intros cur t1. unfold retransmitPacket. now rewrite Hfind. }
  cbn [fires].
  destruct Hp as [Hp|Hp].
  - erewrite (click_eq (ClickNack seq) (mkWorld s t []));
      [|simpl; unfold sendNack; rewrite Hp; reflexivity].
    cbn [st now timers app].
    erewrite (fire_single (mkWorld _ _ _));
      [ | reflexivity | cbn [due now]; lia
        | cbn [cb due st run_callback]; unfold nackArrived; rewrite Hp;
          cbv zeta; rewrite Hretx; reflexivity ].
    erewrite (fire_single (mkWorld _ _ _));
      [ | reflexivity | cbn [due now]; lia
        | cbn [cb due st run_callback]; rewrite Hp; reflexivity ].
    cbn [Protocol_eqb negb st timers packets setPackets setAcks waitingForAck].
    split; [reflexivity|]. split.
    { rewrite map_frameKey_markStatusById, map_app, map_frameKey_markStatus.
      reflexivity. }
    split; [apply hasReceived_arrival | rewrite Hp; discriminate].
  - erewrite (click_eq (ClickNack seq) (mkWorld s t []));
      [|simpl; unfold sendNack; rewrite Hp; reflexivity].
    cbn [st now timers app].
    erewrite (fire_single (mkWorld _ _ _));
      [ | reflexivity | cbn [due now]; lia
        | cbn [cb due st run_callback]; unfold nackArrived; rewrite Hp;
          cbv zeta; rewrite Hretx; reflexivity ].
    erewrite (fire_single (mkWorld _ _ _));
      [ | reflexivity | cbn [due now]; lia
        | cbn [cb due st run_callback]; rewrite Hp; reflexivity ].
    cbn [Protocol_eqb negb st timers packets setPackets setAcks setWaitingForAck
         waitingForAck].
    split; [reflexivity|]. split.
    { rewrite map_frameKey_markStatusById, map_app, map_frameKey_markStatus.
      reflexivity. }
    split; [apply hasReceived_arrival | reflexivity].
Qed.

(** X14. Under Selective-Repeat and Stop-and-Wait, with no other timer
    pending, a NACK of [seq] resends that number alone: when the registry
    holds a frame numbered [seq], two timers later the registry has gained
    exactly one frame, a retransmission numbered [seq], which is in status
    received and so can be acknowledged, nothing is pending, and under
    Stop-and-Wait [waitingForAck] is clear; when it holds none, one timer
    later nothing has been added and nothing is pending. *)
Theorem nack_resends_one_frame (w : World) (seq : Z)
    (Hp : protocol (st w) = selective_repeat \/ protocol (st w) = stop_and_wait)
    (Hquiet : timers w = []) :
  (In seq (map sequenceNumber (packets (st w))) ->
     timers (fires 2 (click (ClickNack seq) w)) = []
     /\ map frameKey (packets (st (fires 2 (click (ClickNack seq) w))))
        = map frameKey (packets (st w)) ++ [(seq, true)]
     /\ hasReceived seq (packets (st (fires 2 (click (ClickNack seq) w)))) = true
     /\ (protocol (st w) = stop_and_wait ->
         waitingForAck (st (fires 2 (click (ClickNack seq) w))) = false))
  /\ (~ In seq (map sequenceNumber (packets (st w))) ->
      timers (fires 1 (click (ClickNack seq) w)) = []
      /\ packets (st (fires 1 (click (ClickNack seq) w)))
         = markStatus seq lost (packets (st w))).
Proof.
  split.
  - intros Hin. apply in_map_iff in Hin. destruct Hin as [p [Hseq Hin]].
    destruct (find_present (fun q => sequenceNumber q =? seq) _ p Hin)
      as [original Hfind]; [now apply Z.eqb_eq|].
    now apply (single_nack_run w seq original).
  - intros Hnot.
    assert (Hfind : find (fun p => sequenceNumber p =? seq) (packets (st w)) = None).
    { apply find_absent. intros p Hin.
      destruct (sequenceNumber p =? seq) eqn:E; [|reflexivity].
      exfalso. apply Hnot. apply in_map_iff. exists p.
      split; [now apply Z.eqb_eq | exact Hin]. }
    destruct w as [s t ts]. cbn [st now timers] in *. subst ts.
    cbn [fires].
    destruct Hp as [Hp|Hp];
      (erewrite (click_eq (ClickNack seq) (mkWorld s t []));
         [|simpl; unfold sendNack; rewrite Hp; reflexivity]);
      cbn [st now timers app];
      (erewrite (fire_single (mkWorld _ _ _));
         [ | reflexivity | cbn [due now]; lia
           | cbn [cb due st run_callback]; unfold nackArrived, retransmitPacket;
             rewrite Hp, Hfind; reflexivity ]);
      split; reflexivity.
Qed.

Lemma nack_resends_one_frame_witness :
  map frameKey (packets (st (fires 2 (click (ClickNack 2) sr_three_received))))
  = map frameKey (packets (st sr_three_received)) ++ [(2, true)].
Proof.
  destruct (nack_resends_one_frame sr_three_received 2) as [H _].
  - left. vm_compute. reflexivity.
  - vm_compute. reflexivity.
  - destruct H as [_ [H _]]; [|exact H].
    vm_compute. right. right. left. reflexivity.
Defined.

(** ** Loss injection *)

Lemma markStatusById_absent (pid : Z) (st' : PacketStatus) (ps : list Packet) :
  find (fun p => id p =? pid) ps = None -> markStatusById pid st' ps = ps.
Proof.
  intros H. unfold markStatusById.
  rewrite <- (map_id ps) at 2. apply map_ext_in. intros p Hin.
  now rewrite (find_none _ _ H p Hin).
Qed.

Lemma find_by_id (pid : Z) (ps : list Packet) :
  In pid (map id ps) -> exists p, find (fun q => id q =? pid) ps = Some p /\ In p ps.
Proof.
  intros Hin. apply in_map_iff in Hin. destruct Hin as [q [Hq Hin]].
  destruct (find_present (fun r => id r =? pid) ps q Hin) as [p Hfind];
    [now apply Z.eqb_eq|].
  exists p. split; [exact Hfind|]. now apply find_some in Hfind.
Qed.

(** X15. [losePacket] on an id that no frame of the registry carries changes
    nothing and sets no timer, under every protocol; under Simple it never
    sets a timer at all and adds no frame. *)
Theorem lose_unknown_frame_is_ignored (w : World) (packetId : Z) :
  (~ In packetId (map id (packets (st w))) -> click (ClickLose packetId) w = w)
  /\ (protocol (st w) = simple ->
      timers (click (ClickLose packetId) w) = timers w
      /\ packets (st (click (ClickLose packetId) w))
         = markStatusById packetId lost (packets (st w))).
Proof.
  destruct w as [s t ts]. cbn [st now timers]. split.
  - intros Hnot.
    assert (Hfind : find (fun p => id p =? packetId) (packets s) = None).
    { apply find_absent. intros p Hin.
      destruct (id p =? packetId) eqn:E; [|reflexivity].
      exfalso. apply Hnot. apply in_map_iff. exists p.
      split; [now apply Z.eqb_eq | exact Hin]. }
    unfold click. cbn [st now timers handle]. unfold losePacket.
    rewrite Hfind. simpl. unfold setPackets.
    rewrite (markStatusById_absent _ _ _ Hfind), app_nil_r. now destruct s.
  - intros Hp. unfold click. cbn [st now timers handle]. unfold losePacket.
    rewrite Hp. destruct (find _ (packets s)); simpl;
      rewrite app_nil_r; split; reflexivity.
Qed.

Lemma lose_unknown_frame_is_ignored_witness :
  click (ClickLose 77) gbn_one_received = gbn_one_received.
Proof.
  destruct (lose_unknown_frame_is_ignored gbn_one_received 77) as [H _].
  apply H. vm_compute. intros [H0|[]]. discriminate H0.
Defined.

(** X16. Under Selective-Repeat and Stop-and-Wait, with no other timer
    pending, losing a frame of the registry resends its sequence number
    alone: two timers later the registry has gained exactly one frame, a
    retransmission with that number, in status received, and nothing is
    pending. *)
Theorem lose_resends_one_frame (w : World) (p : Packet)
    (Hp : protocol (st w) = selective_repeat \/ protocol (st w) = stop_and_wait)
    (Hquiet : timers w = [])
    (Hfind : find (fun q => id q =? id p) (packets (st w)) = Some p) :
  timers (fires 2 (click (ClickLose (id p)) w)) = []
  /\ map frameKey (packets (st (fires 2 (click (ClickLose (id p)) w))))
     = map frameKey (packets (st w)) ++ [(sequenceNumber p, true)]
  /\ hasReceived (sequenceNumber p)
       (packets (st (fires 2 (click (ClickLose (id p)) w)))) = true.
Proof.
  destruct w as [s t ts]. cbn [st now timers] in *. subst ts.
  assert (Hin : In p (packets s)) by now apply find_some in Hfind.
  destruct (find_present (fun q => sequenceNumber q =? sequenceNumber p) _ p Hin)
    as [original Horig]; [apply Z.eqb_refl|].
  assert (Hretx : forall cur t1,
            retransmitPacket s (sequenceNumber p) t1 cur
            = (cur |> setPackets
                        (fun prev => prev ++ [mkPacket t1 (sequenceNumber p)
                                                (data original) retransmitting t1 true]),
               [mkTimer (t1 + 1000) (CbRetxArrived s t1)])).
  { intros cur t1. unfold retransmitPacket. now rewrite Horig. }
  cbn [fires].
  destruct Hp as [Hp|Hp];
    (erewrite (click_eq (ClickLose (id p)) (mkWorld s t []));
       [|simpl; unfold losePacket; rewrite Hfind, Hp; reflexivity]);
    cbn [st now timers app];
    (erewrite (fire_single (mkWorld _ _ _));
       [ | reflexivity | cbn [due now]; lia
         | cbn [cb due st run_callback]; rewrite Hretx; reflexivity ]);
    (erewrite (fire_single (mkWorld _ _ _));
       [ | reflexivity | cbn [due now]; lia
         | cbn [cb due st run_callback]; rewrite Hp; reflexivity ]);
    cbn [Protocol_eqb st timers packets setPackets setWaitingForAck];
    (split; [reflexivity|]); split;
    [ rewrite map_frameKey_markStatusById, map_app, map_frameKey_markStatusById;
      reflexivity
    | apply hasReceived_arrival
    | rewrite map_frameKey_markStatusById, map_app, map_frameKey_markStatusById;
      reflexivity
    | apply hasReceived_arrival ].
Qed.

Lemma lose_resends_one_frame_witness :
  map frameKey
    (packets (st (fires 2 (click (ClickLose (id (mkPacket 1100 1 (frameData 1)
                                                  received 1100 false)))
                                 sr_three_received))))
  = map frameKey (packets (st sr_three_received))
    ++ [(sequenceNumber (mkPacket 1100 1 (frameData 1) received 1100 false), true)].
Proof.
  destruct (lose_resends_one_frame sr_three_received
              (mkPacket 1100 1 (frameData 1) received 1100 false))
    as [_ [H _]].
  - left. vm_compute. reflexivity.
  - vm_compute. reflexivity.
  - vm_compute. reflexivity.
  - exact H.
Defined.

(** X17. Under Go-Back-N, in a reachable world with no other timer pending,
    losing any frame of the registry resends the whole window as it stood
    at the click: once the [1 + 2 * |window|] timers have fired, the registry
    has gained one retransmission per window member, in ascending order,
    and nothing is pending. *)
Theorem lose_go_back_n_resends_window (w : World) (packetId : Z)
    (Hreach : reachable w) (Hgbn : protocol (st w) = go_back_n)
    (Hquiet : timers w = [])
    (Hin : In packetId (map id (packets (st w)))) :
  timers (fires (1 + 2 * List.length (senderWindow (st w)))
                (click (ClickLose packetId) w)) = []
  /\ map frameKey
       (packets (st (fires (1 + 2 * List.length (senderWindow (st w)))
                           (click (ClickLose packetId) w))))
     = map frameKey (packets (st w))
       ++ map (fun x => (x, true)) (senderWindow (st w)).
Proof.
  pose proof (reachable_WellFormed w Hreach) as Hwf.
  destruct (find_by_id packetId _ Hin) as [p [Hfind _]].
  destruct w as [s t ts]. cbn [st now timers] in *. subst ts.
  set (W := senderWindow s).
  replace (1 + 2 * List.length W)%nat with (S (2 * List.length W)) by lia.
  remember (2 * List.length W)%nat as n eqn:Hn.
  cbn [fires].
  erewrite (click_eq (ClickLose packetId) (mkWorld s t []));
    [|simpl; unfold losePacket; rewrite Hfind, Hgbn; reflexivity].
  cbn [st now timers app].
  erewrite (fire_single (mkWorld _ _ _));
    [ | reflexivity | cbn [due now]; lia
      | cbn [cb due st run_callback]; unfold retransmitFromSequence;
        rewrite filter_from_base; reflexivity ].
  fold W.
  destruct (stagger_pending s (t + 500) 0 W) as [Hmap [_ Hstag]].
  match goal with
  | |- context [fires _ ?w3] =>
      destruct (resend_fires s Hwf n w3) as [Hdone Hkeys]
  end.
  - cbn [timers]. apply stagger_resend. apply incl_refl.
  - exact Hstag.
  - cbn [timers]. rewrite stagger_length.
    rewrite <- (length_map snd (pendingRetransmits _)), Hmap. lia.
  - split; [exact Hdone|].
    rewrite Hkeys. cbn [st timers packets setPackets].
    rewrite map_frameKey_markStatusById. f_equal.
    rewrite <- Hmap at 2. rewrite map_map. reflexivity.
Qed.

Lemma lose_go_back_n_resends_window_witness :
  timers (fires (1 + 2 * List.length (senderWindow (st gbn_three_received)))
                (click (ClickLose 1100) gbn_three_received)) = []
  /\ map frameKey
       (packets (st (fires (1 + 2 * List.length (senderWindow (st gbn_three_received)))
                           (click (ClickLose 1100) gbn_three_received))))
     = map frameKey (packets (st gbn_three_received))
       ++ map (fun x => (x, true)) (senderWindow (st gbn_three_received)).
Proof.
  apply lose_go_back_n_resends_window.
  - unfold gbn_three_received. apply reachable_run. apply reach_init.
  - vm_compute. reflexivity.
  - vm_compute. reflexivity.
  - vm_compute. right. left. reflexivity.
Defined.

(** ** An acknowledgment and its timer *)

Lemma filter_twice {A} (f g : A -> bool) (l : list A) :
  filter f (filter g l) = filter (fun x => g x && f x) l.
Proof.
  induction l as [|x l IH]; simpl; [reflexivity|].
  destruct (g x); simpl; [destruct (f x)|]; now rewrite IH.
Qed.

Lemma filter_drops (seq : Z) (l : list Z) :
  ~ In seq (filter (fun x => negb (x =? seq)) l).
Proof.
  intros H. apply filter_In in H. destruct H as [_ H].
  now rewrite Z.eqb_refl in H.
Qed.

(** X18. Under the two windowed protocols, [sendAck seq] on a received frame
    followed by its own timer leaves a window without [seq].  Under
    Go-Back-N with [seq] the expected number, what is left is exactly the
    members above [seq]; under Selective-Repeat the call itself leaves the
    window alone and the timer removes [seq] and nothing else. *)
Theorem acknowledgment_slides_the_window (s : State) (seq t : Z)
    (Hp : protocol s = go_back_n \/ protocol s = selective_repeat)
    (Hrec : hasReceived seq (packets s) = true) :
  ~ In seq (senderWindow (ackArrived s t seq ACK (fst (sendAck s seq t))))
  /\ snd (sendAck s seq t) = [mkTimer (t + 500) (CbAckArrived s t seq ACK)]
  /\ (protocol s = go_back_n -> seq = expectedSequenceNumber s ->
      senderWindow (ackArrived s t seq ACK (fst (sendAck s seq t)))
      = filter (fun x => seq <? x) (senderWindow s))
  /\ (protocol s = selective_repeat ->
      senderWindow (fst (sendAck s seq t)) = senderWindow s
      /\ senderWindow (ackArrived s t seq ACK (fst (sendAck s seq t)))
         = filter (fun x => negb (x =? seq)) (senderWindow s)).
Proof.
  destruct (find_received_present _ _ Hrec) as [packet Hfind].
  assert (Htimer : forall cur,
            senderWindow (ackArrived s t seq ACK cur)
            = filter (fun x => negb (x =? seq)) (senderWindow cur)).
  { intros cur. unfold ackArrived. destruct Hp as [Hp|Hp]; rewrite Hp; reflexivity. }
  split; [rewrite Htimer; apply filter_drops|]. split.
  { unfold sendAck. rewrite Hfind.
    pose proof (ackPolicy_always_sends s packet seq) as Hsend.
    assert (Hty : snd (ackPolicy s packet seq) = ACK).
    { unfold ackPolicy. destruct Hp as [Hp|Hp]; rewrite Hp; reflexivity. }
    destruct (ackPolicy s packet seq) as [[s1 should] ty]. simpl in *.
    now subst. }
  split.
  - intros Hgbn E. rewrite Htimer.
    destruct (go_back_n_in_order_ack s seq t Hgbn Hrec E) as [_ Hw].
    rewrite Hw, filter_twice. apply filter_ext. intros x. lia.
  - intros Hsr.
    assert (Hcall : senderWindow (fst (sendAck s seq t)) = senderWindow s).
    { unfold sendAck, ackPolicy. rewrite Hfind, Hsr.
      destruct (seq =? expectedSequenceNumber s); simpl; [|reflexivity].
      now destruct (drainBuffer (receiverBuffer s) (expectedSequenceNumber s + 1)). }
    split; [exact Hcall|]. now rewrite Htimer, Hcall.
Qed.

Lemma acknowledgment_slides_the_window_witness :
  ~ In 1 (senderWindow
            (ackArrived (st gbn_three_received) 3300 1 ACK
               (fst (sendAck (st gbn_three_received) 1 3300)))).
Proof.
  destruct (acknowledgment_slides_the_window (st gbn_three_received) 1 3300)
    as [H _].
  - left. vm_compute. reflexivity.
  - vm_compute. reflexivity.
  - exact H.
Defined.

(** ** The receiver panel *)

(** X19. [sendAck seq] sets its timer exactly when the receiver panel lists
    a frame numbered [seq] in status received, the frames for which it shows
    the ACK and NACK buttons; otherwise it changes nothing. *)
Theorem ack_button_matches_sendAck (s : State) (seq t : Z) :
  ((exists p, In p (getReceivedPackets s)
              /\ sequenceNumber p = seq /\ status p = received)
   <-> exists tm, snd (sendAck s seq t) = [tm])
  /\ ((forall p, In p (getReceivedPackets s) ->
                 sequenceNumber p = seq -> status p <> received)
      -> sendAck s seq t = (s, [])).
Proof.
  assert (Hiff : (exists p, In p (getReceivedPackets s)
                            /\ sequenceNumber p = seq /\ status p = received)
                 <-> hasReceived seq (packets s) = true).
  { unfold hasReceived, getReceivedPackets. rewrite existsb_exists. split.
    - intros [p [Hin [Hseq Hst]]]. apply filter_In in Hin. exists p.
      split; [apply Hin|]. rewrite Hseq, Hst, Z.eqb_refl. reflexivity.
    - intros [p [Hin Hpred]]. apply andb_prop in Hpred. destruct Hpred as [H1 H2].
      apply Z.eqb_eq in H1. apply PacketStatus_eqb_eq in H2.
      exists p. split; [|now split]. apply filter_In. split; [exact Hin|].
      now rewrite H2. }
  split.
  - rewrite Hiff. split.
    + intros Hrec. destruct (find_received_present _ _ Hrec) as [packet Hfind].
      unfold sendAck. rewrite Hfind.
      pose proof (ackPolicy_always_sends s packet seq) as Hsend.
      destruct (ackPolicy s packet seq) as [[s1 should] ty]. simpl in Hsend.
      subst should. eexists. reflexivity.
    + intros [tm Htm]. apply Bool.not_false_is_true. intros Hrec.
      rewrite (sendAck_noop s seq t Hrec) in Htm. discriminate.
  - intros Hnone. apply sendAck_noop.
    apply Bool.not_true_is_false. intros Hrec.
    apply Hiff in Hrec. destruct Hrec as [p [Hin [Hseq Hst]]].
    now elim (Hnone p Hin Hseq).
Qed.

Lemma ack_button_matches_sendAck_witness :
  sendAck (st gbn_one_received) 5 1100 = (st gbn_one_received, []).
Proof.
  destruct (ack_button_matches_sendAck (st gbn_one_received) 5 1100) as [_ H].
  apply H. intros p Hin Hseq. exfalso. revert Hseq.
  assert (Hall : forallb (fun q => negb (sequenceNumber q =? 5))
                         (getReceivedPackets (st gbn_one_received)) = true)
    by (vm_compute; reflexivity).
  rewrite forallb_forall in Hall. specialize (Hall p Hin).
  intros Hseq. rewrite Hseq in Hall. discriminate Hall.
Defined.

(** ** Stop-and-Wait: one frame at a time *)

Lemma hasReceived_first_arrival (seq t : Z) (d : string) (st0 : PacketStatus)
    (b : bool) (ps : list Packet) :
  hasReceived seq (markStatusById t received (ps ++ [mkPacket t seq d st0 t b])) = true.
Proof.
  unfold hasReceived, markStatusById. rewrite map_app, existsb_app.
  simpl. rewrite ?Z.eqb_refl. simpl. rewrite ?Z.eqb_refl. simpl. apply orb_true_r.
Qed.

Lemma markStatus_all (seq : Z) (st' : PacketStatus) (ps : list Packet) :
  Forall (fun p => sequenceNumber p = seq -> status p = st') (markStatus seq st' ps).
Proof.
  unfold markStatus. apply Forall_map. apply Forall_forall. intros p _.
  destruct (sequenceNumber p =? seq) eqn:E; simpl; [reflexivity|].
  intros H. apply Z.eqb_neq in E. contradiction.
Qed.

(** X20. Stop-and-Wait round trip.  In a world with no timer pending where
    the gate is open and the next number to send is the expected one:
    send, let the frame arrive, acknowledge it, let the acknowledgment
    timer fire.  Then the gate is open again, both counters have advanced by
    one, every frame with that number is acknowledged, nothing was added to
    the acknowledgment log and nothing is pending. *)
Theorem stop_and_wait_round_trip (w : World)
    (Hsw : protocol (st w) = stop_and_wait)
    (Hquiet : timers w = [])
    (Hcan : canSendPacket (st w) = true)
    (Hsync : nextSequenceNumber (st w) = expectedSequenceNumber (st w)) :
  let n := nextSequenceNumber (st w) in
  let w' := fire (click (ClickAck n) (fire (click ClickSend w))) in
  timers w' = []
  /\ canSendPacket (st w') = true
  /\ nextSequenceNumber (st w') = n + 1
  /\ expectedSequenceNumber (st w') = n + 1
  /\ acks (st w') = acks (st w)
  /\ Forall (fun p => sequenceNumber p = n -> status p = acknowledged)
            (packets (st w')).
Proof.
  destruct w as [s t ts]. cbn [st now timers] in *. subst ts. cbv zeta.
  assert (Hsend : handle ClickSend s t
    = (s |> setIsSimulating (fun _ => true)
         |> setPackets (fun prev => prev ++
              [mkPacket t (nextSequenceNumber s) (frameData (nextSequenceNumber s))
                        sending t false])
         |> setWaitingForAck (fun _ => true)
         |> setNextSequenceNumber (fun prev => prev + 1),
       [mkTimer (t + 1000) (CbArrived t)])).
  { simpl. unfold sendPacket. rewrite Hcan, Hsw. reflexivity. }
  rewrite (click_eq ClickSend (mkWorld s t []) _ _ Hsend).
  cbn [st now timers app].
  erewrite (fire_single (mkWorld _ _ _));
    [ | reflexivity | cbn [due now]; lia | cbn [cb due st run_callback]; reflexivity ].
  match goal with
  | |- context [click _ (mkWorld ?s2 ?t2 [])] =>
      assert (Hack : handle (ClickAck (nextSequenceNumber s)) s2 t2
        = (s2 |> setExpectedSequenceNumber (fun prev => prev + 1),
           [mkTimer (t2 + 500) (CbAckArrived s2 t2 (nextSequenceNumber s) ACK)]))
  end.
  { simpl handle. unfold sendAck.
    match goal with
    | |- context [find ?f ?l] =>
        destruct (find_received_present (nextSequenceNumber s) l) as [packet Hfind]
    end.
    { cbn [packets setPackets setIsSimulating setWaitingForAck setNextSequenceNumber].
      apply hasReceived_first_arrival. }
    rewrite Hfind. unfold ackPolicy.
    cbn [protocol expectedSequenceNumber setPackets setIsSimulating
         setWaitingForAck setNextSequenceNumber].
    rewrite Hsw, <- Hsync, Z.eqb_refl. reflexivity. }
  erewrite (click_eq _ (mkWorld _ _ _) _ _ Hack).
  cbn [st now timers app].
  erewrite (fire_single (mkWorld _ _ _));
    [ | reflexivity | cbn [due now]; lia
      | cbn [cb due st run_callback]; unfold ackArrived;
        cbn [protocol setPackets setIsSimulating setWaitingForAck
             setNextSequenceNumber setExpectedSequenceNumber];
        rewrite Hsw; reflexivity ].
  cbn [st timers]. split; [reflexivity|]. split.
  { unfold canSendPacket. simpl. now rewrite Hsw. }
  split; [reflexivity|]. split; [simpl; lia|]. split; [reflexivity|].
  simpl. apply markStatus_all.
Qed.

Lemma stop_and_wait_round_trip_witness :
  canSendPacket
    (st (fire (click (ClickAck (nextSequenceNumber (st (initialWorld 0))))
                     (fire (click ClickSend (initialWorld 0)))))) = true.
Proof.
  destruct (stop_and_wait_round_trip (initialWorld 0)) as [_ [H _]];
    [reflexivity | reflexivity | reflexivity | reflexivity | exact H].
Defined.
